(** * hugo-aide [publish.ts]: command dispatch and build lifecycle

    A shallow embedding of [publish.ts] (the [PublishCommandHandlerContext]
    class, the five common command handlers and the [CLI] dispatcher) and
    the properties of its specification that were checked against it.

    The program is effectful: it writes to the console, imports hook
    modules, calls hooks, runs shell commands and deletes files.  Every
    method is embedded as a computation in a state-and-exception monad [M]
    over a [State] holding the file system, the chronological trace of
    observable events and the promises that were created but never
    awaited.  The external collaborators (docopt, the glob expansion of
    Deno's std/fs, std/path, std/fmt/colors, tsd-shell, the version helper
    and the hook modules found on disk) are fields of an environment
    record [Env]. *)

From stdpp Require Import base strings gmap list.

Open Scope string_scope.
Open Scope list_scope.

(** ** JavaScript values that reach the program *)

(** A value of a parsed docopt option: a flag, a string argument, or null.
    An absent key is a failed lookup in the option map. *)
Inductive JsVal :=
| JsBool (b : bool)
| JsStr (s : string)
| JsNull.

(** JavaScript truthiness, as used by [x ? a : b], [if (x)] and [||]. *)
Definition truthy (v : JsVal) : bool :=
  match v with
  | JsBool b => b
  | JsStr s => negb (String.eqb s "")
  | JsNull => false
  end.

(** Truthiness of a destructured property: a missing key is [undefined]. *)
Definition truthyProp (o : gmap string JsVal) (k : string) : bool :=
  match o !! k with
  | Some v => truthy v
  | None => false
  end.

(** What a [throw] (or a rejected promise) can carry.  [catch (e)] binds
    any value: an [Error] object with its message, [undefined] or [null],
    or some other value that has no [message] property. *)
Inductive Thrown :=
| ErrorObj (message : string)
| ThrownNullish
| ThrownOther (repr : string).

(** [export enum BuildLifecycleStep] *)
Inductive BuildLifecycleStep :=
| PREPARE
| FINALIZE.

Definition stepName (step : BuildLifecycleStep) : string :=
  match step with
  | PREPARE => "prepare"
  | FINALIZE => "finalize"
  end.

(** The colour functions of std/fmt/colors that the program uses. *)
Inductive Color := Yellow | Green | Red | BrightRed | BrightCyan.

(** An argument of [console.log] / [console.error]. *)
Inductive LogArg :=
| LStr (s : string)
| LThrown (e : Thrown)
| LUndefined.

(** The output configuration spread into the shell options:
    [shell.cliVerboseShellOutputOptions] or [shell.quietShellOutputOptions]. *)
Inductive ShellOutput := CliVerboseOutput | QuietOutput.

Record ShellOptions := {
  output : ShellOutput;
  dryRun : bool
}.

(** The five functions of [commonHandlers], and the identity of a handler
    as the dispatcher sees it (custom handlers by position, from 0). *)
Inductive CommonHandler :=
| PrepareBuildHandler
| BuildHandler
| CleanHandler
| UpdateHandler
| VersionHandler.

Inductive HandlerId :=
| Custom (index : nat)
| Common (h : CommonHandler).

(** ** Observable events *)

Inductive Event :=
| ConsoleLog (args : list LogArg)
| ConsoleError (args : list LogArg)
| ConsoleDir (o : gmap string JsVal)
| DynamicImport (url : string)                       (* [await import(url)] attempted *)
| HookInvoked (file : string) (step : BuildLifecycleStep)
                                                     (* [handler(this, step)] called *)
| HookEffect (file : string) (label : string)        (* something the hook body did *)
| ShellCommand (cmd : string) (opts : ShellOptions)  (* [shell.runShellCommand] called *)
| CommandExecuted (cmd : string)                     (* the runner spawned the command *)
| RemoveSync (target : string)                       (* [Deno.removeSync] on a resolved path *)
| HandlerInvoked (h : HandlerId).                    (* [handler(context)] called by [CLI] *)

(** ** Hook modules *)

(** How a promise settles. *)
Inductive Settlement :=
| Fulfilled
| Rejected (e : Thrown).

(** What calling a hook's default function does.  A plain function runs
    to its end (or throws) inside the call.  An [async] function (the
    documented shape of a hook) runs up to its first suspension inside the
    call and returns a promise; the rest of its body, and a [throw]
    anywhere in it, are only seen by whoever awaits that promise. *)
Inductive CallBehaviour :=
| SyncReturn (effects : list string)
| SyncThrow (effects : list string) (e : Thrown)
| AsyncCall (before : list string) (after : list string) (s : Settlement).

Inductive DefaultExport :=
| NotAFunction
| DefaultFunction (handler : BuildLifecycleStep -> CallBehaviour).

(** The module namespace object obtained from [import()]. *)
Record Module := {
  default : DefaultExport
}.

(** An entry yielded by [fs.expandGlobSync] (the fields the program reads). *)
Record WalkEntry := {
  path : string;
  isFile : bool
}.

(** A promise that was created by a call and dropped without [await]:
    the work it still has to do and how it will settle. *)
Record FloatingPromise := {
  fp_file : string;
  fp_after : list string;
  fp_settles : Settlement
}.

(** ** State and the monad *)

Record State := {
  files : list string;            (* absolute paths that exist *)
  trace : list Event;             (* oldest event first *)
  floating : list FloatingPromise (* promises nobody awaits, oldest first *)
}.

Inductive Completion (A : Type) :=
| Normal (a : A)
| Throw (e : Thrown).
Arguments Normal {A} a.
Arguments Throw {A} e.

Definition M (A : Type) : Type := State -> Completion A * State.

Definition ret {A} (a : A) : M A := fun st => (Normal a, st).

Definition throw {A} (e : Thrown) : M A := fun st => (Throw e, st).

Definition bind {A B} (m : M A) (k : A -> M B) : M B :=
  fun st =>
    match m st with
    | (Normal a, st') => k a st'
    | (Throw e, st') => (Throw e, st')
    end.

(** [try { body } catch (err) { handler }] *)
Definition try_catch {A} (body : M A) (handler : Thrown -> M A) : M A :=
  fun st =>
    match body st with
    | (Normal a, st') => (Normal a, st')
    | (Throw e, st') => handler e st'
    end.

Notation "x <- m ;; k" := (bind m (fun x => k))
  (at level 100, m at next level, right associativity).
Notation "m ;;; k" := (bind m (fun _ => k))
  (at level 100, right associativity).

Definition liftCompletion {A} (c : Completion A) : M A := fun st => (c, st).

Definition emit (e : Event) : M unit :=
  fun st => (Normal tt,
             {| files := files st; trace := trace st ++ [e]; floating := floating st |}).

(** [l.forEach(f)], and a plain loop over a list. *)
Fixpoint forEach {A} (l : list A) (f : A -> M unit) : M unit :=
  match l with
  | [] => ret tt
  | x :: rest => f x ;;; forEach rest f
  end.

Definition emitAll (es : list Event) : M unit := forEach es emit.

Definition float (p : FloatingPromise) : M unit :=
  fun st => (Normal tt,
             {| files := files st; trace := trace st; floating := floating st ++ [p] |}).

Definition console_log (args : list LogArg) : M unit := emit (ConsoleLog args).
Definition console_error (args : list LogArg) : M unit := emit (ConsoleError args).
Definition console_dir (o : gmap string JsVal) : M unit := emit (ConsoleDir o).

Definition when (b : bool) (m : M unit) : M unit := if b then m else ret tt.

(** ** The environment: the external collaborators *)

Record Env := {
  (* [Deno.cwd()] *)
  cwd : string;
  (* [docopt.default(doc)]: parses the process arguments against the grammar *)
  docopt_default : string -> Completion (gmap string JsVal);
  (* [fs.expandGlobSync(glob, {root})]: the entries it yields, then the
     error it throws, if any.  The program never passes [root], which then
     defaults to [Deno.cwd()]. *)
  expandGlobSync : string -> JsVal -> list WalkEntry * option Thrown;
  (* [path.relative(from, to)] *)
  relative : JsVal -> string -> Completion string;
  (* [path.toFileUrl(p).toString()], for the absolute paths the expansion yields *)
  toFileUrl : string -> string;
  (* [import(url)]: the module, or the error of a failed load *)
  importModule : string -> Completion Module;
  (* std/fmt/colors *)
  paint : Color -> string -> string;
  (* what running a command for real does: [Some e] when the runner throws *)
  shellOutcome : string -> option Thrown;
  (* [gsv.determineVersionFromRepoTag(import.meta.url, {repoIdentity})] *)
  determineVersionFromRepoTag : string -> string -> Completion string;
  (* [import.meta.url] of publish.ts *)
  importMetaURL : string
}.

(** ** [CommandHandlerSpecOptions] and the context *)

(** The data fields of [CommandHandlerSpecOptions].  Its three function
    fields receive the options object itself, so they are kept in
    [CommandHandlerSpecOptions] below and take this record. *)
Record SpecData := {
  calledFromMetaURL : string;
  calledFromMain : bool;
  version : string;
  chsProjectHome : option string
}.

Record PublishCommandHandlerContext := {
  chsOptions : SpecData;
  cliOptions : gmap string JsVal;
  projectHome : JsVal;
  buildLifecyleHandlerGlob : JsVal;
  isVerbose : bool;
  isDryRun : bool
}.

(** [(ctx: T): Promise<true | void>], awaited by [CLI]: [true] is the
    sentinel, [false] stands for [undefined]. *)
Definition PublishCommandHandler : Type := PublishCommandHandlerContext -> M bool.

Record CommandHandlerSpecOptions := {
  specData : SpecData;
  docoptSpec : option (SpecData -> Completion string);
  customHandlers : option (list PublishCommandHandler);
  prepareContext :
    option (SpecData -> gmap string JsVal -> Completion PublishCommandHandlerContext)
}.

(** [chsOptions.projectHome || Deno.cwd()] *)
Definition projectHomeOrCwd (env : Env) (chs : SpecData) : string :=
  match chsProjectHome chs with
  | Some s => if String.eqb s "" then cwd env else s
  | None => cwd env
  end.

(** The constructor of [PublishCommandHandlerContext].  [x as string] is a
    compile-time assertion only: a truthy option value is stored as it is. *)
Definition newContext (env : Env) (chs : SpecData) (opts : gmap string JsVal)
  : PublishCommandHandlerContext :=
  let home :=
    match opts !! "--project" with
    | Some v => if truthy v then v else JsStr (projectHomeOrCwd env chs)
    | None => JsStr (projectHomeOrCwd env chs)
    end in
  let glob :=
    match opts !! "--build-hooks" with
    | Some v => if truthy v then v else JsStr "**/*/pubctl-hook-build.ts"
    | None => JsStr "**/*/pubctl-hook-build.ts"
    end in
  let dry := if truthyProp opts "--dry-run" then true else false in
  {| chsOptions := chs;
     cliOptions := opts;
     projectHome := home;
     buildLifecyleHandlerGlob := glob;
     isDryRun := dry;
     isVerbose := dry || (if truthyProp opts "--verbose" then true else false) |}.

(** ** File system primitives

    Relative paths are resolved by Deno against the current working
    directory. *)

Definition resolvePath (env : Env) (f : string) : string :=
  cwd env +:+ "/" +:+ f.

Definition pathExists (p : string) (fs : list string) : bool :=
  existsb (String.eqb p) fs.

(** [p] itself or something below it. *)
Definition inTree (p q : string) : bool :=
  String.eqb q p || String.prefix (p +:+ "/") q.

Definition removeTree (p : string) (fs : list string) : list string :=
  List.filter (fun q => negb (inTree p q)) fs.

(** [fs.existsSync(f)] *)
Definition existsSync (env : Env) (f : string) : M bool :=
  fun st => (Normal (pathExists (resolvePath env f) (files st)), st).

(** [Deno.removeSync(f, { recursive: true })]: removes the whole tree and
    throws [NotFound] when there is nothing at [f]. *)
Definition unlinkTree (p : string) : M unit :=
  fun st =>
    if pathExists p (files st)
    then (Normal tt,
          {| files := removeTree p (files st);
             trace := trace st;
             floating := floating st |})
    else (Throw (ErrorObj "NotFound"), st).

Definition removeSync (env : Env) (f : string) : M unit :=
  emit (RemoveSync (resolvePath env f)) ;;;
  unlinkTree (resolvePath env f).

(** ** The shell runner

    [shell.runShellCommand(cmd, opts)], awaited.  The runner is an
    external collaborator that honours [dryRun]: with it the command is
    reported and nothing is spawned; otherwise the command is executed and
    the runner may throw. *)
Definition runShellCommand (env : Env) (cmd : string) (opts : ShellOptions) : M unit :=
  emit (ShellCommand cmd opts) ;;;
  if dryRun opts then ret tt
  else
    emit (CommandExecuted cmd) ;;;
    match shellOutcome env cmd with
    | None => ret tt
    | Some e => throw e
    end.

(** The options object every lifecycle method builds:
    [{...(isVerbose ? cliVerbose : quiet), dryRun: isDryRun}]. *)
Definition shellOptions (ctx : PublishCommandHandlerContext) : ShellOptions :=
  {| output := if isVerbose ctx then CliVerboseOutput else QuietOutput;
     dryRun := isDryRun ctx |}.

(** ** Methods of [PublishCommandHandlerContext] *)

Section Methods.

Variable env : Env.
Variable ctx : PublishCommandHandlerContext.

Definition reportShellCmd (cmd : string) : M string :=
  when (isVerbose ctx && negb (isDryRun ctx))
       (console_log [LStr (paint env BrightCyan cmd)]) ;;;
  ret cmd.

(** The body of the [for ... of fs.expandGlobSync(glob)] loop of
    [getPrepareBuildSubmoduleRelNames], over the entries still to come;
    [result] is the array built so far. *)
Fixpoint collectRelNames (entries : list WalkEntry) (result : list string)
  : M (list string) :=
  match entries with
  | [] => ret result
  | we :: rest =>
      if isFile we then
        prepModuleName <- liftCompletion (relative env (projectHome ctx) (path we)) ;;
        collectRelNames rest (result ++ [prepModuleName])
      else collectRelNames rest result
  end.

(** The generator is consumed lazily: an error of the expansion is thrown
    after the entries yielded before it have been processed. *)
Definition afterGlob {A} (err : option Thrown) (a : A) : M A :=
  match err with
  | None => ret a
  | Some e => throw e
  end.

Definition getPrepareBuildSubmoduleRelNames : M (list string) :=
  let '(entries, err) := expandGlobSync env (cwd env) (buildLifecyleHandlerGlob ctx) in
  result <- collectRelNames entries [] ;;
  afterGlob err result.

(** [handler(this, step);] -- the call is not awaited.  A plain function
    runs (and may throw) inside the call; an [async] one runs up to its
    first suspension, and the promise it returns is dropped. *)
Definition callHook (file : string) (c : CallBehaviour) : M unit :=
  match c with
  | SyncReturn effects =>
      emitAll (map (HookEffect file) effects)
  | SyncThrow effects e =>
      emitAll (map (HookEffect file) effects) ;;; throw e
  | AsyncCall before after s =>
      emitAll (map (HookEffect file) before) ;;;
      float {| fp_file := file; fp_after := after; fp_settles := s |}
  end.

(** The [try] block of [handleProjectBuildHooks] for one hook file:
    what follows the [await import(...)] ... *)
Definition useModule (step : BuildLifecycleStep) (we : WalkEntry)
    (prepModuleName : string) (module : Module) : M unit :=
  when (isDryRun ctx || isVerbose ctx)
       (console_log [LStr (stepName step);
                     LStr (paint env Yellow prepModuleName);
                     LStr (paint env Green "imported")]) ;;;
  when (negb (isDryRun ctx))
       (match default module with
        | DefaultFunction handler =>
            emit (HookInvoked (path we) step) ;;;
            callHook (path we) (handler step) ;;;
            when (isVerbose ctx)
                 (console_log [LStr (stepName step);
                               LStr (paint env Yellow prepModuleName);
                               LStr (paint env Green "executed")])
        | NotAFunction =>
            console_log
              [LStr (paint env BrightRed
                       (prepModuleName +:+ " does not have a default function"))]
        end).

(** ... and the whole block. *)
Definition loadAndRunHook (step : BuildLifecycleStep) (we : WalkEntry)
    (prepModuleName : string) : M unit :=
  let url := toFileUrl env (path we) in
  emit (DynamicImport url) ;;;
  module <- liftCompletion (importModule env url) ;;
  useModule step we prepModuleName module.

(** The [catch (err)] block. *)
Definition reportHookError (prepModuleName : string) (err : Thrown) : M unit :=
  console_log [LStr (paint env BrightRed prepModuleName)] ;;;
  console_log [LThrown err].

(** The body of the [for ... of] loop of [handleProjectBuildHooks]. *)
Fixpoint runHooks (step : BuildLifecycleStep) (entries : list WalkEntry)
    (result : list string) : M (list string) :=
  match entries with
  | [] => ret result
  | we :: rest =>
      if isFile we then
        prepModuleName <- liftCompletion (relative env (projectHome ctx) (path we)) ;;
        try_catch (loadAndRunHook step we prepModuleName)
                  (reportHookError prepModuleName) ;;;
        runHooks step rest (result ++ [prepModuleName])
      else runHooks step rest result
  end.

Definition handleProjectBuildHooks (step : BuildLifecycleStep) : M (list string) :=
  let '(entries, err) := expandGlobSync env (cwd env) (buildLifecyleHandlerGlob ctx) in
  result <- runHooks step entries [] ;;
  afterGlob err result.

Definition prepareBuild : M (list string) :=
  handleProjectBuildHooks PREPARE.

(** [finalizeBuild] awaits the hooks and returns nothing. *)
Definition finalizeBuild : M unit :=
  handleProjectBuildHooks FINALIZE ;;; ret tt.

Definition build : M unit :=
  prepareBuild ;;;
  updatePkgs <- reportShellCmd "hugox" ;;
  runShellCommand env updatePkgs (shellOptions ctx) ;;;
  finalizeBuild.

(** The callback of [["go.sum", "public", "resources"].forEach]. *)
Definition cleanTarget (f : string) : M unit :=
  found <- existsSync env f ;;
  if found then
    if isDryRun ctx then
      console_log [LStr "delete"; LStr (paint env Red f)]
    else
      removeSync env f ;;;
      when (isVerbose ctx) (console_log [LStr (paint env Red ("deleted " +:+ f))])
  else ret tt.

Definition cleanTargets : list string := ["go.sum"; "public"; "resources"].

Definition clean : M unit :=
  hugoModClean <- reportShellCmd "hugox mod clean --all" ;;
  runShellCommand env hugoModClean (shellOptions ctx) ;;;
  forEach cleanTargets cleanTarget.

(** [Array.prototype.join(" ")] *)
Fixpoint join (sep : string) (l : list string) : string :=
  match l with
  | [] => ""
  | [x] => x
  | x :: rest => x +:+ sep +:+ join sep rest
  end.

Definition update : M unit :=
  names <- getPrepareBuildSubmoduleRelNames ;;
  updatePkgs <- reportShellCmd ("udd pubctl.ts " +:+ join " " names) ;;
  runShellCommand env updatePkgs (shellOptions ctx).

End Methods.

(** ** The common command handlers *)

Section Handlers.

Variable env : Env.

(** [determineVersion(importMetaURL)] *)
Definition determineVersion (url : string) : Completion string :=
  determineVersionFromRepoTag env url "shah/hugo-aide".

Definition prepareBuildHandler : PublishCommandHandler := fun ctx =>
  if truthyProp (cliOptions ctx) "prepare-build" then
    prepareBuild env ctx ;;; ret true
  else ret false.

Definition buildHandler : PublishCommandHandler := fun ctx =>
  if truthyProp (cliOptions ctx) "build" then
    build env ctx ;;; ret true
  else ret false.

Definition cleanHandler : PublishCommandHandler := fun ctx =>
  if truthyProp (cliOptions ctx) "clean" then
    clean env ctx ;;; ret true
  else ret false.

Definition updateHandler : PublishCommandHandler := fun ctx =>
  if truthyProp (cliOptions ctx) "update" then
    update env ctx ;;; ret true
  else ret false.

Definition versionHandler : PublishCommandHandler := fun ctx =>
  if truthyProp (cliOptions ctx) "version" then
    console_log [LStr ("pubctl " +:+ paint env Yellow (version (chsOptions ctx)))] ;;;
    v <- liftCompletion (determineVersion (importMetaURL env)) ;;
    console_log [LStr ("hugo-aide " +:+ paint env Yellow v)] ;;;
    ret true
  else ret false.

(** [export const commonHandlers], each with the name the trace gives it. *)
Definition commonHandlers : list (HandlerId * PublishCommandHandler) :=
  [ (Common PrepareBuildHandler, prepareBuildHandler);
    (Common BuildHandler, buildHandler);
    (Common CleanHandler, cleanHandler);
    (Common UpdateHandler, updateHandler);
    (Common VersionHandler, versionHandler) ].

End Handlers.

(** ** The dispatcher *)

Definition dquote : string := String (Ascii.ascii_of_nat 34) "".

Definition defaultDocoptSpec (chs : SpecData) : string :=
  "
Publication Controller " +:+ version chs +:+ ".

Usage:
  pubctl prepare-build [--project] [--build-hooks] [--dry-run] [--verbose]
  pubctl build [--project] [--build-hooks] [--dry-run] [--verbose]
  pubctl clean [--dry-run] [--verbose]
  pubctl update [--dry-run] [--verbose]
  pubctl version
  pubctl -h | --help

Options:
  --project        The project's home directory (default Deno.cwd())
  --build-hooks    Deno " +:+ dquote +:+ "prepare-build" +:+ dquote +:+
  " modules which will be found and executed (default " +:+ dquote +:+
  "**/*/pubctl-hook-build.ts" +:+ dquote +:+ ")
  --dry-run        Show what will be done (but don't actually do it)
  --verbose        Be explicit about what's going on
  -h --help        Show this screen
".

(** The custom handlers, numbered by position. *)
Definition numbered (hs : list PublishCommandHandler)
  : list (HandlerId * PublishCommandHandler) :=
  imap (fun i h => (Custom i, h)) hs.

(** [for (const handler of hs) { handled = await handler(context);
    if (handled) break; }] -- [handled] is the variable of [CLI], which
    both loops assign. *)
Fixpoint dispatch (hs : list (HandlerId * PublishCommandHandler))
    (context : PublishCommandHandlerContext) (handled : bool) : M bool :=
  match hs with
  | [] => ret handled
  | (id, handler) :: rest =>
      emit (HandlerInvoked id) ;;;
      handled' <- handler context ;;
      if handled' then ret true else dispatch rest context handled'
  end.

(** The [catch (e)] block of [CLI]: [console.error(e.message)].  Reading a
    property of [undefined] or [null] is itself a [TypeError]. *)
Definition reportDispatchError (e : Thrown) : M unit :=
  match e with
  | ErrorObj message => console_error [LStr message]
  | ThrownOther _ => console_error [LUndefined]
  | ThrownNullish => throw (ErrorObj "TypeError: Cannot read property 'message' of undefined")
  end.

(** The grammar string: [docoptSpec ? docoptSpec(chsOptions) :
    defaultDocoptSpec(chsOptions)]. *)
Definition grammarOf (chs : CommandHandlerSpecOptions) : Completion string :=
  match docoptSpec chs with
  | Some f => f (specData chs)
  | None => Normal (defaultDocoptSpec (specData chs))
  end.

(** The context: [prepareContext ? prepareContext(chsOptions, cliOptions) :
    new PublishCommandHandlerContext(chsOptions, cliOptions)]. *)
Definition contextOf (env : Env) (chs : CommandHandlerSpecOptions)
    (opts : gmap string JsVal) : Completion PublishCommandHandlerContext :=
  match prepareContext chs with
  | Some f => f (specData chs) opts
  | None => Normal (newContext env (specData chs) opts)
  end.

(** The two loops of [CLI] and the check that follows them. *)
Definition resolveHandlers (env : Env) (chs : CommandHandlerSpecOptions)
    (opts : gmap string JsVal) (context : PublishCommandHandlerContext) : M unit :=
  handled <- match customHandlers chs with
             | Some hs => dispatch (numbered hs) context false
             | None => ret false
             end ;;
  handled <- dispatch (commonHandlers env) context handled ;;
  when (negb handled)
       (console_error [LStr "Unable to handle validly parsed docoptSpec:"] ;;;
        console_dir opts).

(** The [try] block of [CLI]. *)
Definition dispatchBody (env : Env) (chs : CommandHandlerSpecOptions) : M unit :=
  doc <- liftCompletion (grammarOf chs) ;;
  opts <- liftCompletion (docopt_default env doc) ;;
  context <- liftCompletion (contextOf env chs opts) ;;
  resolveHandlers env chs opts context.

Definition CLI (env : Env) (chs : CommandHandlerSpecOptions) : M unit :=
  try_catch (dispatchBody env chs) reportDispatchError.

(** ** The lifecycle operations, uniformly

    What the promise returned by each lifecycle method resolves to:
    [prepareBuild] is declared [Promise<string[]>] and returns the list of
    hook names; the other four have no [return] and resolve to
    [undefined]. *)

Inductive LifecycleOp :=
| OpPrepareBuild
| OpBuild
| OpFinalizeBuild
| OpClean
| OpUpdate.

Inductive Returned :=
| ReturnedUndefined
| ReturnedNames (names : list string).

Definition lifecycle (env : Env) (ctx : PublishCommandHandlerContext)
    (op : LifecycleOp) : M Returned :=
  match op with
  | OpPrepareBuild => names <- prepareBuild env ctx ;; ret (ReturnedNames names)
  | OpBuild => build env ctx ;;; ret ReturnedUndefined
  | OpFinalizeBuild => finalizeBuild env ctx ;;; ret ReturnedUndefined
  | OpClean => clean env ctx ;;; ret ReturnedUndefined
  | OpUpdate => update env ctx ;;; ret ReturnedUndefined
  end.

(** ** A small concrete world

    A site kept in [/site], with one hook file in a theme directory and a
    directory that happens to carry the hook file name.  Used to run the
    program on concrete inputs. *)

Module Sample.

Definition defaultGlob : string := "**/*/pubctl-hook-build.ts".

Definition tree : list WalkEntry :=
  [ {| path := "/site/theme/pubctl-hook-build.ts"; isFile := true |};
    {| path := "/site/odd/pubctl-hook-build.ts"; isFile := false |};
    {| path := "/site/docs/pubctl-hook-build.ts"; isFile := true |} ].

Fixpoint endsWith (suffix s : string) : bool :=
  String.eqb suffix s ||
  match s with
  | EmptyString => false
  | String _ rest => endsWith suffix rest
  end.

(** Entries below [root] named [pubctl-hook-build.ts], for the default
    pattern; a pattern that is not a string is a [TypeError]. *)
Definition expand (entries : list WalkEntry) (root : string) (glob : JsVal)
  : list WalkEntry * option Thrown :=
  match glob with
  | JsStr g =>
      (List.filter
         (fun we => String.eqb g defaultGlob &&
                    String.prefix (root +:+ "/") (path we) &&
                    endsWith "/pubctl-hook-build.ts" (path we))
         entries,
       None)
  | _ => ([], Some (ErrorObj "TypeError: Path must be a string"))
  end.

Fixpoint dropPrefix (p s : string) : string :=
  match p, s with
  | String _ p', String _ s' => dropPrefix p' s'
  | _, _ => s
  end.

Definition rel (from : JsVal) (to : string) : Completion string :=
  match from with
  | JsStr f =>
      Normal (if String.prefix (f +:+ "/") to then dropPrefix (f +:+ "/") to else to)
  | _ => Throw (ErrorObj "TypeError: Path must be a string")
  end.

Definition fileUrl (p : string) : string := "file://" +:+ p.

Definition tag (c : Color) (s : string) : string :=
  match c with
  | Yellow => "<yellow>" +:+ s
  | Green => "<green>" +:+ s
  | Red => "<red>" +:+ s
  | BrightRed => "<brightRed>" +:+ s
  | BrightCyan => "<brightCyan>" +:+ s
  end.

(** A world with the given working directory, parsed options and hook
    modules; every shell command succeeds. *)
Definition world (dir : string) (opts : gmap string JsVal)
    (modules : string -> Completion Module) : Env :=
  {| cwd := dir;
     docopt_default := fun _ => Normal opts;
     expandGlobSync := expand tree;
     relative := rel;
     toFileUrl := fileUrl;
     importModule := modules;
     paint := tag;
     shellOutcome := fun _ => None;
     determineVersionFromRepoTag := fun _ _ => Normal "v0.2.0";
     importMetaURL := "https://denopkg.com/shah/hugo-aide/publish.ts" |}.

Definition plainHook (label : string) : Module :=
  {| default := DefaultFunction (fun _ => SyncReturn [label]) |}.

(** [export default async function (ctx, step) { await ...; <label> }] *)
Definition slowHook (label : string) : Module :=
  {| default := DefaultFunction (fun _ => AsyncCall [] [label] Fulfilled) |}.

(** [export default async function (ctx, step) { throw new Error(msg) }] *)
Definition rejectingHook (msg : string) : Module :=
  {| default := DefaultFunction (fun _ => AsyncCall [] [] (Rejected (ErrorObj msg))) |}.

Definition noModules : string -> Completion Module :=
  fun _ => Throw (ErrorObj "Module not found").

Definition data : SpecData :=
  {| calledFromMetaURL := "file:///site/pubctl.ts";
     calledFromMain := true;
     version := "v0.1.0";
     chsProjectHome := None |}.

Definition start (fs : list string) : State :=
  {| files := fs; trace := []; floating := [] |}.

End Sample.

(** * Inputs used in the examples *)

(** A process started outside the site: the pattern matches nothing. *)
Definition awayEnv : Env := Sample.world "/elsewhere" ∅ Sample.noModules.

(** The site lives in [/site] and says so in its spec options. *)
Definition siteData : SpecData :=
  {| calledFromMetaURL := "file:///site/pubctl.ts";
     calledFromMain := true;
     version := "v0.1.0";
     chsProjectHome := Some "/site" |}.

Definition siteEnv : Env := Sample.world "/site" ∅ Sample.noModules.


Definition realCtx : PublishCommandHandlerContext :=
  newContext siteEnv Sample.data
    {[ "clean" := JsBool true ]}.

(** A site with two hooks: the theme's is [async] and has work left after
    its first suspension; the other is a plain function. *)
Definition slowThenPlain (url : string) : Completion Module :=
  if String.eqb url "file:///site/theme/pubctl-hook-build.ts"
  then Normal (Sample.slowHook "theme assets written")
  else if String.eqb url "file:///site/docs/pubctl-hook-build.ts"
  then Normal (Sample.plainHook "docs indexed")
  else Throw (ErrorObj "Module not found").

Definition slowEnv : Env := Sample.world "/site" ∅ slowThenPlain.

(** A site whose theme hook is [async] and throws. *)
Definition rejectingThenPlain (url : string) : Completion Module :=
  if String.eqb url "file:///site/theme/pubctl-hook-build.ts"
  then Normal (Sample.rejectingHook "theme hook failed")
  else if String.eqb url "file:///site/docs/pubctl-hook-build.ts"
  then Normal (Sample.plainHook "docs indexed")
  else Throw (ErrorObj "Module not found").

Definition rejectingEnv : Env := Sample.world "/site" ∅ rejectingThenPlain.

Definition claimAll : PublishCommandHandler := fun _ => ret true.

(** [customHandlers: [async () => true]], nothing else overridden. *)
Definition claimingSpec : CommandHandlerSpecOptions :=
  {| specData := Sample.data;
     docoptSpec := None;
     customHandlers := Some [claimAll];
     prepareContext := None |}.

(** [customHandlers: [async () => { throw undefined; }]] *)
Definition throwUndefined : PublishCommandHandler := fun _ => throw ThrownNullish.

Definition throwingSpec : CommandHandlerSpecOptions :=
  {| specData := Sample.data;
     docoptSpec := None;
     customHandlers := Some [throwUndefined];
     prepareContext := None |}.

(** * Vocabulary of the properties

    Invariants of a run are stated as a relation [R] between the state
    before and the state after.  A computation respects [R] when every
    run of it is in [R]. *)

Definition Respects (R : State -> State -> Prop) {A : Type} (m : M A) : Prop :=
  forall st, R st (snd (m st)).

(** What a relation has to tolerate for the hooks, the deletions and the
    shell calls of a context; [ok] says which events it tolerates.
    Nothing is asked about hooks and deletions of a dry run. *)
Definition HooksAllowed (R : State -> State -> Prop) (ok : Event -> Prop)
    (ctx : PublishCommandHandlerContext) : Prop :=
  isDryRun ctx = false ->
  (forall f s, ok (HookInvoked f s)) /\ (forall f c, Respects R (callHook f c)).

Definition RemovalAllowed (R : State -> State -> Prop) (ok : Event -> Prop)
    (env : Env) (ctx : PublishCommandHandlerContext) : Prop :=
  isDryRun ctx = false ->
  forall f, f ∈ cleanTargets ->
    ok (RemoveSync (resolvePath env f)) /\ Respects R (unlinkTree (resolvePath env f)).

Definition ShellAllowed (ok : Event -> Prop) (ctx : PublishCommandHandlerContext) : Prop :=
  forall cmd, ok (ShellCommand cmd (shellOptions ctx)) /\
              (isDryRun ctx = false -> ok (CommandExecuted cmd)).

(** The trace only grows, by events that satisfy [P]. *)
Definition Appends (P : Event -> Prop) (s s' : State) : Prop :=
  exists evs, trace s' = trace s ++ evs /\ Forall P evs.

Definition SameFiles (s s' : State) : Prop := files s' = files s.

Definition SameFloating (s s' : State) : Prop := floating s' = floating s.

(** Every path that disappears satisfies [D]. *)
Definition Deletes (D : string -> Prop) (s s' : State) : Prop :=
  forall q, q ∈ files s -> q ∈ files s' \/ D q.

(** Nothing in the program creates a file. *)
Definition Shrinks (s s' : State) : Prop :=
  forall p, pathExists p (files s') = true -> pathExists p (files s) = true.

Definition anyEvent (e : Event) : Prop := True.


Definition notRemoval (e : Event) : Prop :=
  match e with
  | RemoveSync _ => False
  | _ => True
  end.

Definition nonImport (e : Event) : Prop :=
  match e with
  | DynamicImport _ => False
  | _ => True
  end.

(** A deletion is aimed at one of the three names, resolved against the
    working directory. *)
Definition cwdTargetEvent (env : Env) (e : Event) : Prop :=
  match e with
  | RemoveSync p => exists f, f ∈ cleanTargets /\ p = cwd env +:+ "/" +:+ f
  | _ => True
  end.

(** [q] lies in the tree of one of the three names under the working
    directory. *)
Definition underCwdTarget (env : Env) (q : string) : Prop :=
  exists f, f ∈ cleanTargets /\ inTree (cwd env +:+ "/" +:+ f) q = true.




(** What [clean] does before it looks at the targets. *)
Definition cleanPrelude (env : Env) (ctx : PublishCommandHandlerContext) : M unit :=
  hugoModClean <- reportShellCmd env ctx "hugox mod clean --all" ;;
  runShellCommand env hugoModClean (shellOptions ctx).

(** The regular files that the hook pattern matches when it is expanded
    from the current working directory (the default root of
    [fs.expandGlobSync]). *)
Definition hookFiles (env : Env) (ctx : PublishCommandHandlerContext) : list string :=
  map path (List.filter isFile
              (fst (expandGlobSync env (cwd env) (buildLifecyleHandlerGlob ctx)))).

(** [names] are the paths [ps], each taken relative to the project home. *)
Definition relativeNames (env : Env) (ctx : PublishCommandHandlerContext)
    (ps names : list string) : Prop :=
  Forall2 (fun p n => relative env (projectHome ctx) p = Normal n) ps names.

(** The URLs of the modules whose load was attempted, in order. *)
Definition importsOf (evs : list Event) : list string :=
  omap (fun e => match e with DynamicImport url => Some url | _ => None end) evs.

(** ** Further vocabulary: what the trace says was called *)

(** The option key each common handler reads from the parsed options. *)
Definition commonKey (h : CommonHandler) : string :=
  match h with
  | PrepareBuildHandler => "prepare-build"
  | BuildHandler => "build"
  | CleanHandler => "clean"
  | UpdateHandler => "update"
  | VersionHandler => "version"
  end.

(** The order of [commonHandlers]. *)
Definition commonOrder : list CommonHandler :=
  [PrepareBuildHandler; BuildHandler; CleanHandler; UpdateHandler; VersionHandler].

(** The handlers of [hs] a first-match loop gets to: all those before the
    first whose key is set, and that one. *)
Fixpoint triedUntilClaim (opts : gmap string JsVal) (hs : list CommonHandler)
  : list CommonHandler :=
  match hs with
  | [] => []
  | h :: rest =>
      h :: (if truthyProp opts (commonKey h) then [] else triedUntilClaim opts rest)
  end.

(** The handlers called, in order. *)
Definition handlersCalled (evs : list Event) : list HandlerId :=
  omap (fun e => match e with HandlerInvoked h => Some h | _ => None end) evs.

(** The hook default functions called, in order. *)
Definition hooksCalled (evs : list Event) : list (string * BuildLifecycleStep) :=
  omap (fun e => match e with HookInvoked f s => Some (f, s) | _ => None end) evs.

Definition notHandlerEvent (e : Event) : Prop :=
  match e with
  | HandlerInvoked _ => False
  | _ => True
  end.

Definition notHookCall (e : Event) : Prop :=
  match e with
  | HookInvoked _ _ => False
  | _ => True
  end.

(** The module at [p] loads and its default export is a function. *)
Definition callable (env : Env) (p : string) : bool :=
  match importModule env (toFileUrl env p) with
  | Normal m =>
      match default m with
      | DefaultFunction _ => true
      | NotAFunction => false
      end
  | Throw _ => false
  end.

(** What the hooks of one step may leave in the trace: loads, console
    output, calls of default functions for that step and what the hooks
    do.  No shell call, no deletion, no call for another step. *)
Definition stepEvent (step : BuildLifecycleStep) (e : Event) : Prop :=
  match e with
  | HookInvoked _ s => s = step
  | ShellCommand _ _ | CommandExecuted _ | RemoveSync _ | HandlerInvoked _ => False
  | _ => True
  end.

(** What [update] may leave in the trace: console output and the shell
    call. *)
Definition updateEvent (e : Event) : Prop :=
  match e with
  | ConsoleLog _ | ShellCommand _ _ | CommandExecuted _ => True
  | _ => False
  end.

(** The line [reportShellCmd] prints, if it prints. *)
Definition shellReport (env : Env) (ctx : PublishCommandHandlerContext)
    (cmd : string) : list Event :=
  if isVerbose ctx && negb (isDryRun ctx)
  then [ConsoleLog [LStr (paint env BrightCyan cmd)]] else [].

(** The trace of one call of the shell runner for [ctx] that does not
    throw: the call, and the execution unless it is a dry run. *)
Definition shellRun (ctx : PublishCommandHandlerContext) (cmd : string) : list Event :=
  ShellCommand cmd (shellOptions ctx) ::
  (if isDryRun ctx then [] else [CommandExecuted cmd]).

(** [st] with [evs] appended to its trace. *)
Definition logged (st : State) (evs : list Event) : State :=
  {| files := files st; trace := trace st ++ evs; floating := floating st |}.

(** No target of [l] lies in the tree of an earlier one. *)
Fixpoint unnested (env : Env) (l : list string) : Prop :=
  match l with
  | [] => True
  | g :: rest =>
      (forall f, f ∈ rest -> inTree (resolvePath env g) (resolvePath env f) = false) /\
      unnested env rest
  end.

(** The site, with a shell runner that fails on every command. *)
Definition brokenShellEnv (modules : string -> Completion Module) : Env :=
  {| cwd := "/site";
     docopt_default := fun _ => Normal ∅;
     expandGlobSync := Sample.expand Sample.tree;
     relative := Sample.rel;
     toFileUrl := Sample.fileUrl;
     importModule := modules;
     paint := Sample.tag;
     shellOutcome := fun _ => Some (ErrorObj "exit status 1");
     determineVersionFromRepoTag := fun _ _ => Normal "v0.2.0";
     importMetaURL := "https://denopkg.com/shah/hugo-aide/publish.ts" |}.

(** The site, with arguments that do not parse. *)
Definition badArgsEnv : Env :=
  {| cwd := "/site";
     docopt_default := fun _ => Throw (ErrorObj "Usage: pubctl build");
     expandGlobSync := Sample.expand Sample.tree;
     relative := Sample.rel;
     toFileUrl := Sample.fileUrl;
     importModule := Sample.noModules;
     paint := Sample.tag;
     shellOutcome := fun _ => None;
     determineVersionFromRepoTag := fun _ _ => Normal "v0.2.0";
     importMetaURL := "https://denopkg.com/shah/hugo-aide/publish.ts" |}.

(** A site whose theme hook has no default export and whose docs hook
    is a plain function. *)
Definition mixedModules (url : string) : Completion Module :=
  if String.eqb url "file:///site/theme/pubctl-hook-build.ts"
  then Normal {| default := NotAFunction |}
  else if String.eqb url "file:///site/docs/pubctl-hook-build.ts"
  then Normal (Sample.plainHook "docs indexed")
  else Throw (ErrorObj "Module not found").

(** A site whose theme hook is a plain function that throws. *)
Definition throwingModules (url : string) : Completion Module :=
  if String.eqb url "file:///site/theme/pubctl-hook-build.ts"
  then Normal {| default :=
                   DefaultFunction (fun _ => SyncThrow ["theme started"]
                                                       (ErrorObj "theme hook failed")) |}
  else if String.eqb url "file:///site/docs/pubctl-hook-build.ts"
  then Normal (Sample.plainHook "docs indexed")
  else Throw (ErrorObj "Module not found").

(** The site, with an expansion that yields the theme hook and then
    fails. *)
Definition brokenGlobEnv : Env :=
  {| cwd := "/site";
     docopt_default := fun _ => Normal ∅;
     expandGlobSync := fun _ _ =>
       ([{| path := "/site/theme/pubctl-hook-build.ts"; isFile := true |}],
        Some (ErrorObj "PermissionDenied"));
     relative := Sample.rel;
     toFileUrl := Sample.fileUrl;
     importModule := slowThenPlain;
     paint := Sample.tag;
     shellOutcome := fun _ => None;
     determineVersionFromRepoTag := fun _ _ => Normal "v0.2.0";
     importMetaURL := "https://denopkg.com/shah/hugo-aide/publish.ts" |}.

(** [pubctl clean] on the site, with a shell runner that fails. *)
Definition brokenCleanEnv : Env :=
  {| cwd := "/site";
     docopt_default := fun _ => Normal {[ "clean" := JsBool true ]};
     expandGlobSync := Sample.expand Sample.tree;
     relative := Sample.rel;
     toFileUrl := Sample.fileUrl;
     importModule := Sample.noModules;
     paint := Sample.tag;
     shellOutcome := fun _ => Some (ErrorObj "exit status 1");
     determineVersionFromRepoTag := fun _ _ => Normal "v0.2.0";
     importMetaURL := "https://denopkg.com/shah/hugo-aide/publish.ts" |}.

(** Nothing overridden: the default grammar, context and handlers. *)
Definition unknownSpec : CommandHandlerSpecOptions :=
  {| specData := Sample.data; docoptSpec := None;
     customHandlers := None; prepareContext := None |}.

(** The first loop of [CLI], over the custom handlers if there are any. *)
Definition customLoop (chs : CommandHandlerSpecOptions)
    (context : PublishCommandHandlerContext) : M bool :=
  match customHandlers chs with
  | Some hs => dispatch (numbered hs) context false
  | None => ret false
  end.

(** The calls of all five common handlers, in order. *)
Definition allCommonCalled : list Event :=
  map (fun c => HandlerInvoked (Common c)) commonOrder.

(** ** Further vocabulary: what [clean] does to which paths *)

(** Those of the names [l] at which something exists under the current
    working directory, in the order of [l]. *)
Definition presentOf (env : Env) (st : State) (l : list string) : list string :=
  List.filter (fun f => pathExists (cwd env +:+ "/" +:+ f) (files st)) l.

(** The targets of [clean] that exist under the working directory. *)
Definition presentTargets (env : Env) (st : State) : list string :=
  presentOf env st cleanTargets.

(** The file system after the trees at [ps] have been removed, one after
    the other. *)
Definition removeTrees (ps : list string) (fs : list string) : list string :=
  fold_left (fun acc p => removeTree p acc) ps fs.

(** What a dry run prints for a target that is there. *)
Definition deletionReport (env : Env) (f : string) : Event :=
  ConsoleLog [LStr "delete"; LStr (paint env Red f)].

(** What a real run leaves in the trace for a target that is there: the
    removal of [cwd/f], and a line when verbose. *)
Definition removalOf (env : Env) (ctx : PublishCommandHandlerContext) (f : string)
  : list Event :=
  RemoveSync (cwd env +:+ "/" +:+ f) ::
  (if isVerbose ctx then [ConsoleLog [LStr (paint env Red ("deleted " +:+ f))]] else []).

(** * Properties *)

(** ** Reasoning about computations in [M] *)

Lemma bind_Normal {A B} (m : M A) (k : A -> M B) st a st1 :
  m st = (Normal a, st1) -> bind m k st = k a st1.
Proof. intros H. unfold bind. by rewrite H. Qed.

Lemma bind_Throw {A B} (m : M A) (k : A -> M B) st e st1 :
  m st = (Throw e, st1) -> bind m k st = (Throw e, st1).
Proof. intros H. unfold bind. by rewrite H. Qed.

(** A computation that returned normally ran both halves of a [bind]. *)
Lemma bind_Normal_inv {A B} (m : M A) (k : A -> M B) st b st' :
  bind m k st = (Normal b, st') ->
  exists a st1, m st = (Normal a, st1) /\ k a st1 = (Normal b, st').
Proof.
  unfold bind. destruct (m st) as [[a|e] st1]; intros H.
  - by exists a, st1.
  - discriminate.
Qed.

Lemma lift_Normal_inv {A} (c : Completion A) st a st' :
  liftCompletion c st = (Normal a, st') -> c = Normal a /\ st' = st.
Proof. unfold liftCompletion. intros [= -> ->]. done. Qed.

(** Invariants of a run are stated as a relation between the state
    before and the state after; any reflexive and transitive relation that
    the primitive steps respect is respected by the whole program. *)
Section Respects.

Variable R : State -> State -> Prop.
Hypothesis R_refl : forall s, R s s.
Hypothesis R_trans : forall a b c, R a b -> R b c -> R a c.

Lemma respects_ret {A} (a : A) : Respects R (ret a).
Proof. intros st. apply R_refl. Qed.

Lemma respects_throw {A} (e : Thrown) : Respects R (@throw A e).
Proof. intros st. apply R_refl. Qed.

Lemma respects_lift {A} (c : Completion A) : Respects R (liftCompletion c).
Proof. intros st. apply R_refl. Qed.

Lemma respects_bind {A B} (m : M A) (k : A -> M B) :
  Respects R m -> (forall a, Respects R (k a)) -> Respects R (bind m k).
Proof.
  intros Hm Hk st. unfold bind.
  specialize (Hm st). destruct (m st) as [[a|e] st1]; simpl in *.
  - eapply R_trans; [exact Hm | apply Hk].
  - exact Hm.
Qed.

Lemma respects_try_catch {A} (body : M A) (handler : Thrown -> M A) :
  Respects R body -> (forall e, Respects R (handler e)) -> Respects R (try_catch body handler).
Proof.
  intros Hb Hh st. unfold try_catch.
  specialize (Hb st). destruct (body st) as [[a|e] st1]; simpl in *.
  - exact Hb.
  - eapply R_trans; [exact Hb | apply Hh].
Qed.

Lemma respects_when (b : bool) (m : M unit) :
  (b = true -> Respects R m) -> Respects R (when b m).
Proof. destruct b; intros H; [by apply H | apply respects_ret]. Qed.

Lemma respects_afterGlob {A} (err : option Thrown) (a : A) :
  Respects R (afterGlob err a).
Proof. destruct err; [apply respects_throw | apply respects_ret]. Qed.

Lemma respects_forEach {A} (l : list A) (f : A -> M unit) :
  (forall x, x ∈ l -> Respects R (f x)) -> Respects R (forEach l f).
Proof.
  induction l as [|x l IH]; intros H; simpl.
  - apply respects_ret.
  - apply respects_bind; [apply H; left | intros _; apply IH].
    intros y Hy. apply H. by right.
Qed.

Lemma respects_existsSync env f : Respects R (existsSync env f).
Proof. intros st. apply R_refl. Qed.

Lemma respects_collectRelNames env ctx entries result :
  Respects R (collectRelNames env ctx entries result).
Proof.
  revert result. induction entries as [|we rest IH]; intros result; simpl.
  - apply respects_ret.
  - destruct (isFile we); [|apply IH].
    apply respects_bind; [apply respects_lift | intros name; apply IH].
Qed.

Lemma respects_getPrepareBuildSubmoduleRelNames env ctx :
  Respects R (getPrepareBuildSubmoduleRelNames env ctx).
Proof.
  unfold getPrepareBuildSubmoduleRelNames.
  destruct (expandGlobSync env (cwd env) (buildLifecyleHandlerGlob ctx)) as [entries err].
  apply respects_bind; [apply respects_collectRelNames|].
  intros result. apply respects_afterGlob.
Qed.

(** *** The program's own functions

    [ok] says which events the relation tolerates; what a method needs
    beyond console output and imports is listed as a premise. *)

Variable ok : Event -> Prop.
Hypothesis R_emit : forall e, ok e -> Respects R (emit e).
Hypothesis ok_log : forall args, ok (ConsoleLog args).
Hypothesis ok_import : forall url, ok (DynamicImport url).

Lemma respects_emitAll es : Forall ok es -> Respects R (emitAll es).
Proof.
  intros H. apply respects_forEach. intros e He. apply R_emit.
  rewrite Forall_forall in H. by apply H.
Qed.

Lemma respects_console_log args : Respects R (console_log args).
Proof. apply R_emit, ok_log. Qed.

Lemma respects_callHook file c :
  (forall l, ok (HookEffect file l)) -> (forall p, Respects R (float p)) ->
  Respects R (callHook file c).
Proof.
  intros Hok Hfl.
  assert (Heff : forall l, Respects R (emitAll (map (HookEffect file) l))).
  { intros l. apply respects_emitAll, Forall_forall.
    intros e [x [-> _]]%list_elem_of_fmap. apply Hok. }
  destruct c; simpl.
  - apply Heff.
  - apply respects_bind; [apply Heff | intros _; apply respects_throw].
  - apply respects_bind; [apply Heff | intros _; apply Hfl].
Qed.

Lemma respects_runShellCommand env cmd opts :
  ok (ShellCommand cmd opts) -> (dryRun opts = false -> ok (CommandExecuted cmd)) ->
  Respects R (runShellCommand env cmd opts).
Proof.
  intros H Hx. apply respects_bind; [by apply R_emit|]. intros _.
  destruct (dryRun opts); [apply respects_ret|].
  apply respects_bind; [by apply R_emit, Hx|]. intros _.
  destruct (shellOutcome env cmd); [apply respects_throw | apply respects_ret].
Qed.

Lemma respects_reportShellCmd env ctx cmd : Respects R (reportShellCmd env ctx cmd).
Proof.
  apply respects_bind; [|intros _; apply respects_ret].
  apply respects_when. intros _. apply respects_console_log.
Qed.

Lemma respects_useModule env ctx step we name module :
  HooksAllowed R ok ctx -> Respects R (useModule env ctx step we name module).
Proof.
  intros Hh. apply respects_bind.
  { apply respects_when. intros _. apply respects_console_log. }
  intros _. apply respects_when. intros Hdry%negb_true_iff.
  destruct (Hh Hdry) as [Hinv Hcall].
  destruct (default module) as [|handler]; [apply respects_console_log|].
  apply respects_bind; [apply R_emit, Hinv|]. intros _.
  apply respects_bind; [apply Hcall|]. intros _.
  apply respects_when. intros _. apply respects_console_log.
Qed.

Lemma respects_reportHookError env name err : Respects R (reportHookError env name err).
Proof.
  apply respects_bind; [apply respects_console_log|].
  intros _. apply respects_console_log.
Qed.

(** One pass of the loop body after the import has been started. *)
Lemma respects_afterImport env ctx step we name (c : Completion Module) :
  HooksAllowed R ok ctx ->
  Respects R (try_catch (module <- liftCompletion c ;;
                       useModule env ctx step we name module)
                      (reportHookError env name)).
Proof.
  intros Hh. apply respects_try_catch.
  - apply respects_bind; [apply respects_lift|].
    intros module. by apply respects_useModule.
  - intros e. apply respects_reportHookError.
Qed.

Lemma respects_tryHook env ctx step we name :
  HooksAllowed R ok ctx ->
  Respects R (try_catch (loadAndRunHook env ctx step we name)
                      (reportHookError env name)).
Proof.
  intros Hh. apply respects_try_catch.
  - apply respects_bind; [apply R_emit, ok_import|]. intros _.
    apply respects_bind; [apply respects_lift|].
    intros module. by apply respects_useModule.
  - intros e. apply respects_reportHookError.
Qed.

Lemma respects_runHooks env ctx step entries result :
  HooksAllowed R ok ctx -> Respects R (runHooks env ctx step entries result).
Proof.
  intros Hh. revert result.
  induction entries as [|we rest IH]; intros result; simpl.
  - apply respects_ret.
  - destruct (isFile we); [|apply IH].
    apply respects_bind; [apply respects_lift|]. intros name.
    apply respects_bind; [by apply respects_tryHook|]. intros _. apply IH.
Qed.

Lemma respects_handleProjectBuildHooks env ctx step :
  HooksAllowed R ok ctx -> Respects R (handleProjectBuildHooks env ctx step).
Proof.
  intros Hh. unfold handleProjectBuildHooks.
  destruct (expandGlobSync env (cwd env) (buildLifecyleHandlerGlob ctx)) as [entries err].
  apply respects_bind; [by apply respects_runHooks|].
  intros result. apply respects_afterGlob.
Qed.

Lemma respects_prepareBuild env ctx :
  HooksAllowed R ok ctx -> Respects R (prepareBuild env ctx).
Proof. apply respects_handleProjectBuildHooks. Qed.

Lemma respects_finalizeBuild env ctx :
  HooksAllowed R ok ctx -> Respects R (finalizeBuild env ctx).
Proof.
  intros Hh. apply respects_bind; [by apply respects_handleProjectBuildHooks|].
  intros _. apply respects_ret.
Qed.

Lemma respects_build env ctx :
  HooksAllowed R ok ctx -> ShellAllowed ok ctx -> Respects R (build env ctx).
Proof.
  intros Hh Hs. apply respects_bind; [by apply respects_prepareBuild|]. intros _.
  apply respects_bind; [apply respects_reportShellCmd|]. intros cmd.
  apply respects_bind; [apply respects_runShellCommand; apply Hs|]. intros _.
  by apply respects_finalizeBuild.
Qed.

Lemma respects_cleanTarget env ctx f :
  (isDryRun ctx = false ->
   ok (RemoveSync (resolvePath env f)) /\ Respects R (unlinkTree (resolvePath env f))) ->
  Respects R (cleanTarget env ctx f).
Proof.
  intros Hrm. apply respects_bind; [apply respects_existsSync|].
  intros [|]; [|apply respects_ret].
  destruct (isDryRun ctx) eqn:Hdry; [apply respects_console_log|].
  destruct (Hrm eq_refl) as [Hok Hun].
  apply respects_bind.
  { apply respects_bind; [by apply R_emit | intros _; apply Hun]. }
  intros _. apply respects_when. intros _. apply respects_console_log.
Qed.

Lemma respects_clean env ctx :
  ShellAllowed ok ctx -> RemovalAllowed R ok env ctx -> Respects R (clean env ctx).
Proof.
  intros Hs Hrm. apply respects_bind; [apply respects_reportShellCmd|]. intros cmd.
  apply respects_bind; [apply respects_runShellCommand; apply Hs|]. intros _.
  apply respects_forEach. intros f Hf. apply respects_cleanTarget.
  intros Hdry. by apply Hrm.
Qed.

Lemma respects_update env ctx : ShellAllowed ok ctx -> Respects R (update env ctx).
Proof.
  intros Hs. apply respects_bind; [apply respects_getPrepareBuildSubmoduleRelNames|].
  intros names. apply respects_bind; [apply respects_reportShellCmd|]. intros cmd.
  apply respects_runShellCommand; apply Hs.
Qed.

Lemma respects_lifecycle env ctx op :
  HooksAllowed R ok ctx -> ShellAllowed ok ctx -> RemovalAllowed R ok env ctx ->
  Respects R (lifecycle env ctx op).
Proof.
  intros Hh Hs Hrm.
  destruct op; simpl; (apply respects_bind; [|intros ?; apply respects_ret]).
  - by apply respects_prepareBuild.
  - by apply respects_build.
  - by apply respects_finalizeBuild.
  - by apply respects_clean.
  - by apply respects_update.
Qed.

End Respects.

(** ** C9: the constructor *)

(** C9.  Verbose is implied by dry-run: when [--dry-run] is set and
    [--verbose] is not, the constructed context has [isDryRun = true] and
    [isVerbose = true]; when [--dry-run] is not set, [isVerbose] is the
    [--verbose] flag (and [isDryRun] is false). *)
Theorem newContext_verbose_implied_by_dry_run
    (env : Env) (chs : SpecData) (opts : gmap string JsVal) :
  (truthyProp opts "--dry-run" = true ->
   truthyProp opts "--verbose" = false ->
   isDryRun (newContext env chs opts) = true /\
   isVerbose (newContext env chs opts) = true) /\
  (truthyProp opts "--dry-run" = false ->
   isDryRun (newContext env chs opts) = false /\
   isVerbose (newContext env chs opts) = truthyProp opts "--verbose").
Proof.
  split.
  - intros Hdry _. simpl. by rewrite Hdry.
  - intros Hdry. simpl. rewrite Hdry. simpl.
    by destruct (truthyProp opts "--verbose").
Qed.

Lemma newContext_verbose_implied_by_dry_run_witness :
  (isDryRun (newContext siteEnv Sample.data
               {[ "--dry-run" := JsBool true ]}) = true /\
   isVerbose (newContext siteEnv Sample.data
                {[ "--dry-run" := JsBool true ]}) = true) /\
  (isDryRun (newContext siteEnv Sample.data
               {[ "--verbose" := JsBool true ]}) = false /\
   isVerbose (newContext siteEnv Sample.data
                {[ "--verbose" := JsBool true ]}) =
   truthyProp {[ "--verbose" := JsBool true ]} "--verbose").
Proof.
  split.
  - apply (proj1 (newContext_verbose_implied_by_dry_run
                    siteEnv Sample.data
                    {[ "--dry-run" := JsBool true ]})); reflexivity.
  - apply (proj2 (newContext_verbose_implied_by_dry_run
                    siteEnv Sample.data
                    {[ "--verbose" := JsBool true ]})); reflexivity.
Defined.

(** ** The relations used as invariants *)

Lemma Appends_refl P s : Appends P s s.
Proof. exists []. by rewrite app_nil_r. Qed.

Lemma Appends_trans P a b c : Appends P a b -> Appends P b c -> Appends P a c.
Proof.
  intros (e1 & H1 & F1) (e2 & H2 & F2). exists (e1 ++ e2). split.
  - by rewrite H2, H1, app_assoc.
  - by apply Forall_app.
Qed.

Lemma Appends_emit (P : Event -> Prop) e : P e -> Respects (Appends P) (emit e).
Proof. intros H st. exists [e]. split; [done | by constructor]. Qed.

Lemma Appends_float P p : Respects (Appends P) (float p).
Proof. intros st. exists []. simpl. by rewrite app_nil_r. Qed.

Lemma Appends_unlink P p : Respects (Appends P) (unlinkTree p).
Proof.
  intros st. unfold unlinkTree.
  destruct (pathExists p (files st)); exists []; simpl; by rewrite app_nil_r.
Qed.

Lemma SameFiles_refl s : SameFiles s s.
Proof. done. Qed.

Lemma SameFiles_emit e : Respects SameFiles (emit e).
Proof. by intros st. Qed.

Lemma SameFloating_refl s : SameFloating s s.
Proof. done. Qed.

Lemma SameFloating_emit e : Respects SameFloating (emit e).
Proof. by intros st. Qed.

Lemma SameFiles_trans a b c : SameFiles a b -> SameFiles b c -> SameFiles a c.
Proof. unfold SameFiles. congruence. Qed.

Lemma SameFloating_trans a b c : SameFloating a b -> SameFloating b c -> SameFloating a c.
Proof. unfold SameFloating. congruence. Qed.

Lemma SameFloating_unlink p : Respects SameFloating (unlinkTree p).
Proof. intros st. unfold unlinkTree. by destruct (pathExists p (files st)). Qed.

Lemma Deletes_refl D s : Deletes D s s.
Proof. intros q Hq. by left. Qed.

Lemma Deletes_trans D a b c : Deletes D a b -> Deletes D b c -> Deletes D a c.
Proof.
  intros H1 H2 q Hq. destruct (H1 q Hq) as [Hb|HD]; [by apply H2 | by right].
Qed.

Lemma Deletes_unlink (D : string -> Prop) p :
  (forall q, inTree p q = true -> D q) -> Respects (Deletes D) (unlinkTree p).
Proof.
  intros HD st q Hq. unfold unlinkTree.
  destruct (pathExists p (files st)); simpl; [|by left].
  destruct (inTree p q) eqn:Hin; [right; by apply HD | left].
  unfold removeTree. apply list_elem_of_In, filter_In. split.
  - by apply list_elem_of_In.
  - by rewrite Hin.
Qed.

(** ** C5: dry run *)


Lemma dry_RemovalAllowed R ok env ctx : isDryRun ctx = true -> RemovalAllowed R ok env ctx.
Proof. intros H H'. congruence. Qed.




Ltac inv_bind H :=
  let a := fresh "a" in
  let st1 := fresh "st1" in
  let H1 := fresh H "a" in
  apply bind_Normal_inv in H as (a & st1 & H1 & H).




Lemma respects_at {A} R (m : M A) st r st' :
  Respects R m -> m st = (r, st') -> R st st'.
Proof. intros H E. specialize (H st). by rewrite E in H. Qed.




(** [clean] in a dry run: each target found is reported, none is removed. *)
Lemma dry_cleanTarget env ctx f st :
  isDryRun ctx = true ->
  cleanTarget env ctx f st =
  (Normal tt,
   {| files := files st;
      trace := trace st ++
               (if pathExists (resolvePath env f) (files st)
                then [ConsoleLog [LStr "delete"; LStr (paint env Red f)]] else []);
      floating := floating st |}).
Proof.
  intros Hdry. unfold cleanTarget, existsSync, bind. rewrite Hdry.
  destruct (pathExists (resolvePath env f) (files st)); [done|].
  unfold ret. destruct st. simpl. by rewrite app_nil_r.
Qed.

Lemma dry_forEach_cleanTarget env ctx targets st :
  isDryRun ctx = true ->
  exists evs,
    forEach targets (cleanTarget env ctx) st =
    (Normal tt, {| files := files st; trace := trace st ++ evs; floating := floating st |}) /\
    forall f, f ∈ targets -> pathExists (resolvePath env f) (files st) = true ->
      ConsoleLog [LStr "delete"; LStr (paint env Red f)] ∈ evs.
Proof.
  intros Hdry. revert st. induction targets as [|f rest IH]; intros st; simpl.
  - exists []. split.
    + unfold ret. destruct st. simpl. by rewrite app_nil_r.
    + intros f Hf. by apply elem_of_nil in Hf.
  - unfold bind at 1. rewrite dry_cleanTarget by done.
    match goal with |- context [forEach rest _ ?s] => destruct (IH s) as (evs & -> & Hall) end.
    simpl in *.
    eexists. split; [by rewrite <- app_assoc|].
    intros g [->|Hg]%elem_of_cons Hex.
    + rewrite Hex. apply elem_of_app. left. left.
    + apply elem_of_app. right. by apply Hall.
Qed.

Lemma dry_clean_eq env ctx st :
  isDryRun ctx = true ->
  clean env ctx st =
  forEach cleanTargets (cleanTarget env ctx)
    {| files := files st;
       trace := trace st ++ [ShellCommand "hugox mod clean --all" (shellOptions ctx)];
       floating := floating st |}.
Proof.
  intros Hdry. unfold clean, reportShellCmd, runShellCommand, when, bind, emit, ret.
  cbn [dryRun shellOptions]. by rewrite Hdry, andb_false_r.
Qed.




(** ** C7 and C10: [clean] *)

Lemma pathExists_removeTree_self p fs : pathExists p (removeTree p fs) = false.
Proof.
  unfold pathExists, removeTree. apply not_true_is_false. intros H.
  apply existsb_exists in H as (q & Hq & Heq).
  apply filter_In in Hq as [_ Hq]. apply String.eqb_eq in Heq. subst q.
  unfold inTree in Hq. by rewrite String.eqb_refl in Hq.
Qed.

Lemma pathExists_removeTree_other p q fs :
  pathExists p (removeTree q fs) = true -> pathExists p fs = true.
Proof.
  unfold pathExists, removeTree. intros H.
  apply existsb_exists in H as (x & Hx & Heq).
  apply filter_In in Hx as [Hx _]. apply existsb_exists. by exists x.
Qed.

Lemma Shrinks_unlink p : Respects Shrinks (unlinkTree p).
Proof.
  intros st q. unfold unlinkTree.
  destruct (pathExists p (files st)); simpl; [|done].
  apply pathExists_removeTree_other.
Qed.

Lemma Shrinks_refl s : Shrinks s s.
Proof. by intros p. Qed.

Lemma Shrinks_trans a b c : Shrinks a b -> Shrinks b c -> Shrinks a c.
Proof. intros H1 H2 p Hp. by apply H1, H2. Qed.

Lemma Shrinks_emit e : Respects Shrinks (emit e).
Proof. by intros st p. Qed.

Lemma shrinks_cleanTarget env ctx f : Respects Shrinks (cleanTarget env ctx f).
Proof.
  apply (respects_cleanTarget Shrinks Shrinks_refl Shrinks_trans anyEvent).
  - intros e _. apply Shrinks_emit.
  - done.
  - intros _. split; [done | apply Shrinks_unlink].
Qed.

Lemma shrinks_forEach_cleanTarget env ctx l : Respects Shrinks (forEach l (cleanTarget env ctx)).
Proof.
  apply (respects_forEach Shrinks Shrinks_refl Shrinks_trans).
  intros f _. apply shrinks_cleanTarget.
Qed.

(** An absent target is skipped: no error, no output, no change. *)
Lemma cleanTarget_absent env ctx f st :
  pathExists (resolvePath env f) (files st) = false ->
  cleanTarget env ctx f st = (Normal tt, st).
Proof. intros H. unfold cleanTarget, existsSync, bind. by rewrite H. Qed.

Lemma forEach_cleanTarget_absent env ctx l st :
  (forall f, f ∈ l -> pathExists (resolvePath env f) (files st) = false) ->
  forEach l (cleanTarget env ctx) st = (Normal tt, st).
Proof.
  induction l as [|f rest IH]; intros H; simpl; [done|].
  unfold bind. rewrite cleanTarget_absent by (apply H; left).
  apply IH. intros g Hg. apply H. by right.
Qed.

(** After a real (not dry) pass over one target, the target is gone. *)
Lemma cleanTarget_removes env ctx f st st' :
  isDryRun ctx = false ->
  cleanTarget env ctx f st = (Normal tt, st') ->
  pathExists (resolvePath env f) (files st') = false.
Proof.
  intros Hdry. unfold cleanTarget, existsSync, removeSync, unlinkTree, bind, emit.
  rewrite Hdry. simpl.
  destruct (pathExists (resolvePath env f) (files st)) eqn:Hex; simpl.
  - rewrite Hex. unfold when, console_log, emit, ret.
    destruct (isVerbose ctx); intros [= <-]; simpl; apply pathExists_removeTree_self.
  - by intros [= <-].
Qed.

Lemma forEach_cleanTarget_removes env ctx l st st' :
  isDryRun ctx = false ->
  forEach l (cleanTarget env ctx) st = (Normal tt, st') ->
  forall f, f ∈ l -> pathExists (resolvePath env f) (files st') = false.
Proof.
  intros Hdry. revert st. induction l as [|g rest IH]; intros st H f Hf; simpl in H.
  - by apply elem_of_nil in Hf.
  - inv_bind H. destruct a.
    apply elem_of_cons in Hf as [->|Hf]; [|by eapply IH].
    apply not_true_is_false. intros Hex.
    apply (respects_at _ _ _ _ _ (shrinks_forEach_cleanTarget env ctx rest) H) in Hex.
    by rewrite (cleanTarget_removes env ctx g st st1 Hdry Ha) in Hex.
Qed.

Lemma clean_prelude env ctx st :
  clean env ctx st = (cleanPrelude env ctx ;;; forEach cleanTargets (cleanTarget env ctx)) st.
Proof.
  unfold clean, cleanPrelude, bind.
  by destruct (reportShellCmd env ctx "hugox mod clean --all" st) as [[cmd|e] s].
Qed.

(** The prelude reads nothing from the state: it ends the same way from
    any state, and leaves the files alone. *)
Lemma cleanPrelude_uniform env ctx s1 s2 :
  fst (cleanPrelude env ctx s1) = fst (cleanPrelude env ctx s2).
Proof.
  unfold cleanPrelude, reportShellCmd, runShellCommand, shellOptions, when,
    console_log, bind, emit, ret, throw.
  destruct (isVerbose ctx), (isDryRun ctx); simpl; try reflexivity;
    destruct (shellOutcome env "hugox mod clean --all"); reflexivity.
Qed.

Lemma cleanPrelude_quiet env ctx :
  Respects SameFiles (cleanPrelude env ctx) /\
  Respects (Appends notRemoval) (cleanPrelude env ctx).
Proof.
  split.
  - apply (respects_bind SameFiles SameFiles_trans).
    + apply (respects_reportShellCmd SameFiles SameFiles_refl SameFiles_trans anyEvent);
        [intros e _; apply SameFiles_emit | done].
    + intros cmd.
      apply (respects_runShellCommand SameFiles SameFiles_refl SameFiles_trans anyEvent);
        [intros e _; apply SameFiles_emit | done | done].
  - apply (respects_bind _ (Appends_trans notRemoval)).
    + apply (respects_reportShellCmd _ (Appends_refl _) (Appends_trans _) notRemoval);
        [apply Appends_emit | done].
    + intros cmd.
      apply (respects_runShellCommand _ (Appends_refl _) (Appends_trans _) notRemoval);
        [apply Appends_emit | done | done].
Qed.

Lemma clean_no_removal_in_dry_run env ctx :
  isDryRun ctx = true -> Respects (Appends notRemoval) (clean env ctx).
Proof.
  intros Hdry.
  apply (respects_clean _ (Appends_refl _) (Appends_trans _) notRemoval).
  - apply Appends_emit.
  - done.
  - done.
  - by apply dry_RemovalAllowed.
Qed.

Lemma clean_keeps_files_in_dry_run env ctx :
  isDryRun ctx = true -> Respects SameFiles (clean env ctx).
Proof.
  intros Hdry.
  apply (respects_clean SameFiles SameFiles_refl SameFiles_trans anyEvent).
  - intros e _. apply SameFiles_emit.
  - done.
  - done.
  - by apply dry_RemovalAllowed.
Qed.

(** C7.  [clean] is idempotent: once [clean()] has returned, a second
    [clean()] returns without an error.  After a real run the three
    targets (the lock file and the two output directories, under the
    working directory) are absent, and for any target an absent path is
    skipped silently: no error, no output, no change.  The second run
    deletes nothing and leaves the file system as the first one left it. *)
Theorem clean_idempotent
    (env : Env) (ctx : PublishCommandHandlerContext) (st st1 : State) :
  clean env ctx st = (Normal tt, st1) ->
  (forall f s, pathExists (resolvePath env f) (files s) = false ->
     cleanTarget env ctx f s = (Normal tt, s)) /\
  (isDryRun ctx = false ->
     forall f, f ∈ cleanTargets -> pathExists (resolvePath env f) (files st1) = false) /\
  exists st2,
    clean env ctx st1 = (Normal tt, st2) /\
    files st2 = files st1 /\
    Appends notRemoval st1 st2.
Proof.
  intros H. split; [apply cleanTarget_absent|].
  rewrite clean_prelude in H. inv_bind H. destruct a.
  split.
  { intros Hdry. by eapply forEach_cleanTarget_removes. }
  destruct (isDryRun ctx) eqn:Hdry.
  - destruct (clean env ctx st1) as [c st2] eqn:E. exists st2.
    assert (c = Normal tt) as ->.
    { rewrite dry_clean_eq in E by done.
      match type of E with forEach _ _ ?s = _ =>
        destruct (dry_forEach_cleanTarget env ctx cleanTargets s Hdry) as (evs & E' & _)
      end.
      rewrite E' in E. by injection E as <- _. }
    split; [done|]. split.
    + by apply (respects_at _ _ _ _ _ (clean_keeps_files_in_dry_run env ctx Hdry) E).
    + by apply (respects_at _ _ _ _ _ (clean_no_removal_in_dry_run env ctx Hdry) E).
  - destruct (cleanPrelude env ctx st1) as [c sB] eqn:E.
    assert (c = Normal tt) as ->.
    { pose proof (cleanPrelude_uniform env ctx st st1) as U.
      rewrite Ha, E in U. simpl in U. by subst c. }
    destruct (cleanPrelude_quiet env ctx) as [Hfiles Happ].
    apply (respects_at _ _ _ _ _ Hfiles) in E as Hf.
    apply (respects_at _ _ _ _ _ Happ) in E as Ht.
    exists sB. split; [|done].
    rewrite clean_prelude. unfold bind at 1. rewrite E.
    apply forEach_cleanTarget_absent. intros f Hin. rewrite Hf.
    by eapply forEach_cleanTarget_removes.
Qed.

Lemma clean_idempotent_witness :
  exists st2,
    clean siteEnv realCtx
      (snd (clean siteEnv realCtx
              (Sample.start ["/site/go.sum"; "/site/public"; "/site/public/index.html";
                             "/site/content"]))) = (Normal tt, st2) /\
    files st2 = ["/site/content"].
Proof.
  destruct (clean_idempotent siteEnv realCtx
              (Sample.start ["/site/go.sum"; "/site/public"; "/site/public/index.html";
                             "/site/content"])
              (snd (clean siteEnv realCtx
                      (Sample.start ["/site/go.sum"; "/site/public";
                                     "/site/public/index.html"; "/site/content"])))
              eq_refl) as (_ & _ & st2 & E & Hf & _).
  exists st2. split; [exact E | exact Hf].
Defined.

Lemma clean_reads_flags_only env ctx1 ctx2 st :
  isDryRun ctx1 = isDryRun ctx2 -> isVerbose ctx1 = isVerbose ctx2 ->
  clean env ctx1 st = clean env ctx2 st.
Proof.
  intros Hd Hv. unfold clean, cleanTarget, reportShellCmd, shellOptions.
  by rewrite Hd, Hv.
Qed.

Lemma clean_events_at_cwd env ctx : Respects (Appends (cwdTargetEvent env)) (clean env ctx).
Proof.
  apply (respects_clean _ (Appends_refl _) (Appends_trans _) (cwdTargetEvent env)).
  - apply Appends_emit.
  - done.
  - done.
  - intros _ f Hf. split; [by exists f | apply Appends_unlink].
Qed.

Lemma Deletes_emit D e : Respects (Deletes D) (emit e).
Proof. intros st q Hq. by left. Qed.

Lemma clean_deletes_at_cwd env ctx : Respects (Deletes (underCwdTarget env)) (clean env ctx).
Proof.
  apply (respects_clean _ (Deletes_refl _) (Deletes_trans _) anyEvent).
  - intros e _. apply Deletes_emit.
  - done.
  - done.
  - intros _ f Hf. split; [done|].
    apply Deletes_unlink. intros q Hq. by exists f.
Qed.

(** With [--project /srv/blog] and the process started in [/site], it is
    [/site/public] that goes and [/srv/blog/public] that stays. *)
Example clean_with_other_project_home :
  files (snd (clean siteEnv
                (newContext siteEnv Sample.data
                   {[ "clean" := JsBool true; "--project" := JsStr "/srv/blog" ]})
                (Sample.start ["/site/public"; "/srv/blog/public"]))) =
  ["/srv/blog/public"].
Proof. reflexivity. Qed.

(** ** C8 and C2: hook discovery *)

Lemma runHooks_no_files env ctx step entries result st :
  Forall (fun we => isFile we = false) entries ->
  runHooks env ctx step entries result st = (Normal result, st).
Proof.
  induction 1 as [|we rest Hwe _ IH]; simpl; [done|]. by rewrite Hwe.
Qed.

(** C8 (as amended).  When the glob expansion completes without yielding
    a regular file, [prepareBuild()] returns the empty list and
    [finalizeBuild()] completes; neither changes anything: no module is
    loaded, no default function is called, nothing is printed.
    [finalizeBuild()] has no return value: it resolves to [undefined],
    not to a list. *)
Theorem empty_hook_set
    (env : Env) (ctx : PublishCommandHandlerContext) (entries : list WalkEntry)
    (st : State) :
  expandGlobSync env (cwd env) (buildLifecyleHandlerGlob ctx) = (entries, None) ->
  Forall (fun we => isFile we = false) entries ->
  prepareBuild env ctx st = (Normal [], st) /\
  finalizeBuild env ctx st = (Normal tt, st) /\
  lifecycle env ctx OpPrepareBuild st = (Normal (ReturnedNames []), st) /\
  lifecycle env ctx OpFinalizeBuild st = (Normal ReturnedUndefined, st).
Proof.
  intros Hglob Hnone.
  assert (forall step, handleProjectBuildHooks env ctx step st = (Normal [], st)) as Hh.
  { intros step. unfold handleProjectBuildHooks. rewrite Hglob.
    unfold bind. by rewrite runHooks_no_files. }
  assert (finalizeBuild env ctx st = (Normal tt, st)) as Hfin.
  { unfold finalizeBuild, bind. by rewrite Hh. }
  repeat split.
  - apply Hh.
  - exact Hfin.
  - simpl. unfold bind, prepareBuild. by rewrite Hh.
  - simpl. unfold bind. by rewrite Hfin.
Qed.

Lemma empty_hook_set_witness :
  prepareBuild awayEnv (newContext awayEnv Sample.data ∅) (Sample.start []) =
    (Normal [], Sample.start []) /\
  finalizeBuild awayEnv (newContext awayEnv Sample.data ∅) (Sample.start []) =
    (Normal tt, Sample.start []) /\
  lifecycle awayEnv (newContext awayEnv Sample.data ∅) OpPrepareBuild (Sample.start []) =
    (Normal (ReturnedNames []), Sample.start []) /\
  lifecycle awayEnv (newContext awayEnv Sample.data ∅) OpFinalizeBuild (Sample.start []) =
    (Normal ReturnedUndefined, Sample.start []).
Proof.
  apply (empty_hook_set awayEnv (newContext awayEnv Sample.data ∅) [] (Sample.start [])).
  - reflexivity.
  - constructor.
Defined.

(** C8, as stated, fails for [finalizeBuild]: with no match at all it
    does not return an empty list, it returns nothing. *)
Lemma finalizeBuild_returns_no_list :
  expandGlobSync awayEnv (cwd awayEnv)
    (buildLifecyleHandlerGlob (newContext awayEnv Sample.data ∅)) = ([], None) /\
  fst (lifecycle awayEnv (newContext awayEnv Sample.data ∅) OpFinalizeBuild
         (Sample.start [])) <> Normal (ReturnedNames []).
Proof.
  split; [reflexivity|]. intros H. vm_compute in H. discriminate H.
Qed.

Lemma importsOf_nonImport evs : Forall nonImport evs -> importsOf evs = [].
Proof.
  induction 1 as [|e evs He _ IH]; [done|].
  unfold importsOf in *. simpl. destruct e; simpl in *; try done.
Qed.

Lemma importsOf_app a b : importsOf (a ++ b) = importsOf a ++ importsOf b.
Proof. apply omap_app. Qed.

Lemma collectRelNames_inv env ctx entries result st names st' :
  collectRelNames env ctx entries result st = (Normal names, st') ->
  st' = st /\
  exists new, names = result ++ new /\
    relativeNames env ctx (map path (List.filter isFile entries)) new.
Proof.
  revert result. induction entries as [|we rest IH]; intros result H; simpl in H.
  - injection H as <- <-. split; [done|]. exists []. split; [by rewrite app_nil_r | constructor].
  - destruct (isFile we) eqn:Hf; simpl; rewrite ?Hf.
    + inv_bind H. apply lift_Normal_inv in Ha as [Hrel ->].
      apply IH in H as (-> & new & -> & Hall). split; [done|].
      exists (a :: new). split; [by rewrite <- app_assoc|].
      by constructor.
    + apply IH in H as (-> & new & -> & Hall). split; [done|].
      by exists new.
Qed.

(** The per-hook [try]/[catch] never lets an exception out: a failed
    load and a [throw] inside the call are both caught and printed. *)
Lemma tryHook_Normal env ctx step we name st :
  fst (try_catch (loadAndRunHook env ctx step we name) (reportHookError env name) st) =
  Normal tt.
Proof.
  unfold try_catch.
  destruct (loadAndRunHook env ctx step we name st) as [[[]|e] s]; reflexivity.
Qed.

Lemma try_catch_emit {A} e (m : M A) h st :
  try_catch (emit e ;;; m) h st = try_catch m h (snd (emit e st)).
Proof. reflexivity. Qed.

Lemma nonImport_HooksAllowed ctx : HooksAllowed (Appends nonImport) nonImport ctx.
Proof.
  intros _. split; [done|]. intros f c.
  apply (respects_callHook _ (Appends_refl _) (Appends_trans _) nonImport).
  - apply Appends_emit.
  - done.
  - apply Appends_float.
Qed.

(** One pass of the loop body attempts exactly one import. *)
Lemma tryHook_imports env ctx step we name st :
  exists evs,
    trace (snd (try_catch (loadAndRunHook env ctx step we name)
                           (reportHookError env name) st)) =
    trace st ++ DynamicImport (toFileUrl env (path we)) :: evs /\
    Forall nonImport evs.
Proof.
  unfold loadAndRunHook. rewrite try_catch_emit.
  destruct (respects_afterImport _ (Appends_refl _) (Appends_trans _) nonImport
              (Appends_emit _) (fun _ => I) env ctx step we name
              (importModule env (toFileUrl env (path we)))
              (nonImport_HooksAllowed ctx)
              (snd (emit (DynamicImport (toFileUrl env (path we))) st)))
    as (evs & Htr & Hall).
  exists evs. split; [|done].
  rewrite Htr. simpl. by rewrite <- app_assoc.
Qed.

Lemma runHooks_inv env ctx step entries result st names st' :
  runHooks env ctx step entries result st = (Normal names, st') ->
  exists new evs,
    names = result ++ new /\
    relativeNames env ctx (map path (List.filter isFile entries)) new /\
    trace st' = trace st ++ evs /\
    importsOf evs = map (toFileUrl env) (map path (List.filter isFile entries)).
Proof.
  revert result st. induction entries as [|we rest IH]; intros result st H; simpl in H.
  - injection H as <- <-. exists [], []. rewrite !app_nil_r. repeat split. constructor.
  - destruct (isFile we) eqn:Hf; simpl; rewrite ?Hf.
    + inv_bind H. apply lift_Normal_inv in Ha as [Hrel ->].
      inv_bind H.
      destruct (tryHook_imports env ctx step we a st) as (e1 & T1 & N1).
      rewrite Ha in T1. simpl in T1.
      apply IH in H as (new & e2 & -> & Hall & T2 & I2).
      exists (a :: new), (DynamicImport (toFileUrl env (path we)) :: e1 ++ e2).
      split; [by rewrite <- app_assoc|]. split; [by constructor|]. split.
      * rewrite T2, T1. by rewrite <- app_assoc.
      * simpl. unfold importsOf in *. simpl. fold (importsOf (e1 ++ e2)).
        rewrite importsOf_app, (importsOf_nonImport e1 N1). simpl.
        unfold importsOf. by rewrite I2.
    + apply IH in H as (new & evs & -> & Hall & T & Im). by exists new, evs.
Qed.

(** C2 (as amended).  Hook discovery is rooted at the current working
    directory of the process, not at the project root: both
    [getPrepareBuildSubmoduleRelNames] and [handleProjectBuildHooks] work
    on the regular files that the pattern matches when expanded from the
    working directory, in the order of the expansion, directories
    excluded.  The project home plays no part in which files are found;
    it is only what the returned names are relative to.  The modules that
    [handleProjectBuildHooks] loads are those files, by their absolute
    path. *)
Theorem hook_discovery_rooted_at_cwd
    (env : Env) (ctx : PublishCommandHandlerContext) :
  (forall st names st',
     getPrepareBuildSubmoduleRelNames env ctx st = (Normal names, st') ->
     relativeNames env ctx (hookFiles env ctx) names) /\
  (forall step st names st',
     handleProjectBuildHooks env ctx step st = (Normal names, st') ->
     relativeNames env ctx (hookFiles env ctx) names /\
     exists evs, trace st' = trace st ++ evs /\
                 importsOf evs = map (toFileUrl env) (hookFiles env ctx)).
Proof.
  unfold hookFiles, getPrepareBuildSubmoduleRelNames, handleProjectBuildHooks.
  destruct (expandGlobSync env (cwd env) (buildLifecyleHandlerGlob ctx)) as [entries err].
  simpl. split.
  - intros st names st' H. inv_bind H.
    destruct err; [discriminate|]. injection H as <- <-.
    by apply collectRelNames_inv in Ha as (_ & new & -> & Hall).
  - intros step st names st' H. inv_bind H.
    destruct err; [discriminate|]. injection H as <- <-.
    apply runHooks_inv in Ha as (new & evs & -> & Hall & T & Im).
    split; [done|]. by exists evs.
Qed.

Lemma hook_discovery_rooted_at_cwd_witness :
  relativeNames siteEnv (newContext siteEnv siteData ∅)
    (hookFiles siteEnv (newContext siteEnv siteData ∅))
    ["theme/pubctl-hook-build.ts"; "docs/pubctl-hook-build.ts"].
Proof.
  apply (proj1 (hook_discovery_rooted_at_cwd siteEnv (newContext siteEnv siteData ∅))
           (Sample.start [])
           ["theme/pubctl-hook-build.ts"; "docs/pubctl-hook-build.ts"]
           (Sample.start [])).
  reflexivity.
Defined.

(** C2, as stated, fails.  The project root is [/site], and two regular
    files below it match the pattern; started from [/elsewhere], the
    program finds no hook and loads none, and started from [/site] it
    finds both. *)
Lemma hook_discovery_not_rooted_at_projectHome :
  projectHome (newContext awayEnv siteData ∅) = JsStr "/site" /\
  map path (List.filter isFile
              (fst (expandGlobSync awayEnv "/site"
                      (buildLifecyleHandlerGlob (newContext awayEnv siteData ∅))))) =
    ["/site/theme/pubctl-hook-build.ts"; "/site/docs/pubctl-hook-build.ts"] /\
  getPrepareBuildSubmoduleRelNames awayEnv (newContext awayEnv siteData ∅) (Sample.start []) =
    (Normal [], Sample.start []) /\
  handleProjectBuildHooks awayEnv (newContext awayEnv siteData ∅) PREPARE (Sample.start []) =
    (Normal [], Sample.start []) /\
  fst (getPrepareBuildSubmoduleRelNames siteEnv (newContext siteEnv siteData ∅)
         (Sample.start [])) =
    Normal ["theme/pubctl-hook-build.ts"; "docs/pubctl-hook-build.ts"].
Proof. repeat split; reflexivity. Qed.

(** ** C3 and C4: the call of a hook is not awaited *)

Lemma emitAll_eq es st :
  emitAll es st =
  (Normal tt, {| files := files st; trace := trace st ++ es; floating := floating st |}).
Proof.
  revert st. induction es as [|e es IH]; intros st.
  - destruct st. simpl. unfold ret. by rewrite app_nil_r.
  - unfold emitAll in *. simpl. unfold bind, emit at 1. rewrite IH. simpl.
    by rewrite <- app_assoc.
Qed.

(** Calling an [async] hook returns as soon as the hook first suspends (or
    at once, with a promise already rejected, if it throws): what the hook
    does afterwards is not waited for and how its promise settles is not
    looked at.  The promise joins those nobody awaits. *)
Lemma callHook_async file before after s st :
  callHook file (AsyncCall before after s) st =
  (Normal tt,
   {| files := files st;
      trace := trace st ++ map (HookEffect file) before;
      floating := floating st ++ [{| fp_file := file; fp_after := after; fp_settles := s |}] |}).
Proof. simpl. unfold bind. by rewrite emitAll_eq. Qed.

(** C3.  The code at a hook that is still at work when its call returns.
    [build()] goes on to the next hook, runs [hugox] and then the finalize
    hooks while the theme hook's "theme assets written" has not happened:
    it is nowhere in the trace, and the two promises of the theme hook
    (prepare and finalize) are still pending, unawaited, when [build()]
    returns. *)
Theorem build_does_not_await_hooks :
  build slowEnv (newContext slowEnv Sample.data {[ "build" := JsBool true ]})
    (Sample.start []) =
  (Normal tt,
   {| files := [];
      trace :=
        [ DynamicImport "file:///site/theme/pubctl-hook-build.ts";
          HookInvoked "/site/theme/pubctl-hook-build.ts" PREPARE;
          DynamicImport "file:///site/docs/pubctl-hook-build.ts";
          HookInvoked "/site/docs/pubctl-hook-build.ts" PREPARE;
          HookEffect "/site/docs/pubctl-hook-build.ts" "docs indexed";
          ShellCommand "hugox" {| output := QuietOutput; dryRun := false |};
          CommandExecuted "hugox";
          DynamicImport "file:///site/theme/pubctl-hook-build.ts";
          HookInvoked "/site/theme/pubctl-hook-build.ts" FINALIZE;
          DynamicImport "file:///site/docs/pubctl-hook-build.ts";
          HookInvoked "/site/docs/pubctl-hook-build.ts" FINALIZE;
          HookEffect "/site/docs/pubctl-hook-build.ts" "docs indexed" ];
      floating :=
        [ {| fp_file := "/site/theme/pubctl-hook-build.ts";
             fp_after := ["theme assets written"];
             fp_settles := Fulfilled |};
          {| fp_file := "/site/theme/pubctl-hook-build.ts";
             fp_after := ["theme assets written"];
             fp_settles := Fulfilled |} ] |}).
Proof. reflexivity. Qed.

(** C4.  The code at an [async] hook that throws.  Both names are
    returned and the second hook runs, but the exception of the first is
    not caught at the per-hook boundary: the [catch] block does not run
    (nothing is printed about the failure, and with [--verbose] the hook is
    even reported as executed), and the rejected promise is left without
    a handler. *)
Theorem async_hook_failure_escapes_the_catch :
  handleProjectBuildHooks rejectingEnv
    (newContext rejectingEnv Sample.data
       {[ "prepare-build" := JsBool true; "--verbose" := JsBool true ]})
    PREPARE (Sample.start []) =
  (Normal ["theme/pubctl-hook-build.ts"; "docs/pubctl-hook-build.ts"],
   {| files := [];
      trace :=
        [ DynamicImport "file:///site/theme/pubctl-hook-build.ts";
          ConsoleLog [LStr "prepare"; LStr "<yellow>theme/pubctl-hook-build.ts";
                      LStr "<green>imported"];
          HookInvoked "/site/theme/pubctl-hook-build.ts" PREPARE;
          ConsoleLog [LStr "prepare"; LStr "<yellow>theme/pubctl-hook-build.ts";
                      LStr "<green>executed"];
          DynamicImport "file:///site/docs/pubctl-hook-build.ts";
          ConsoleLog [LStr "prepare"; LStr "<yellow>docs/pubctl-hook-build.ts";
                      LStr "<green>imported"];
          HookInvoked "/site/docs/pubctl-hook-build.ts" PREPARE;
          HookEffect "/site/docs/pubctl-hook-build.ts" "docs indexed";
          ConsoleLog [LStr "prepare"; LStr "<yellow>docs/pubctl-hook-build.ts";
                      LStr "<green>executed"] ];
      floating :=
        [ {| fp_file := "/site/theme/pubctl-hook-build.ts";
             fp_after := [];
             fp_settles := Rejected (ErrorObj "theme hook failed") |} ] |}).
Proof. reflexivity. Qed.

(** What does hold of the per-hook boundary: when the expansion completes
    and the names can be computed, [handleProjectBuildHooks] returns, with
    the name of every hook file found, in order, whatever the loads and
    the calls did. *)
Lemma handleProjectBuildHooks_total env ctx step st entries names :
  expandGlobSync env (cwd env) (buildLifecyleHandlerGlob ctx) = (entries, None) ->
  relativeNames env ctx (map path (List.filter isFile entries)) names ->
  fst (handleProjectBuildHooks env ctx step st) = Normal names.
Proof.
  intros Hglob Hnames. unfold handleProjectBuildHooks. rewrite Hglob.
  assert (forall result st, fst (runHooks env ctx step entries result st) =
                            Normal (result ++ names)) as Hrun.
  { clear Hglob. revert names Hnames.
    induction entries as [|we rest IH]; intros names Hnames result s; simpl in *.
    - inversion Hnames. by rewrite app_nil_r.
    - destruct (isFile we); [|by apply IH].
      simpl in Hnames. inversion Hnames as [|p n ps ns Hrel Hrest]; subst.
      unfold bind at 1, liftCompletion. rewrite Hrel.
      unfold bind at 1.
      pose proof (tryHook_Normal env ctx step we n s) as Hn.
      destruct (try_catch _ _ s) as [c s1]. simpl in Hn. subst c.
      rewrite (IH ns Hrest). by rewrite <- app_assoc. }
  unfold bind. specialize (Hrun [] st).
  destruct (runHooks env ctx step entries [] st) as [c s1]. simpl in Hrun. by subst c.
Qed.

(** ** C1 and C6: the dispatcher *)

(** C1.  The code at a custom handler that claims the request, for
    [pubctl build] in a directory without hooks.  The loop over
    [commonHandlers] is not guarded by [handled]: after the custom handler
    has returned [true], [CLI] still calls [prepareBuildHandler] and
    [buildHandler], and the latter runs the build. *)
Theorem CLI_runs_common_handlers_after_custom_claim :
  CLI (Sample.world "/elsewhere" {[ "build" := JsBool true ]} Sample.noModules)
    claimingSpec (Sample.start []) =
  (Normal tt,
   {| files := [];
      trace :=
        [ HandlerInvoked (Custom 0);
          HandlerInvoked (Common PrepareBuildHandler);
          HandlerInvoked (Common BuildHandler);
          ShellCommand "hugox" {| output := QuietOutput; dryRun := false |};
          CommandExecuted "hugox" ];
      floating := [] |}).
Proof. reflexivity. Qed.

(** The same, for a command only the custom handler knows: all five
    common handlers are called, [handled] is overwritten by their answers,
    and the request that was handled is reported as unhandled. *)
Example CLI_reports_a_handled_request_as_unhandled :
  CLI (Sample.world "/elsewhere" {[ "deploy" := JsBool true ]} Sample.noModules)
    claimingSpec (Sample.start []) =
  (Normal tt,
   {| files := [];
      trace :=
        [ HandlerInvoked (Custom 0);
          HandlerInvoked (Common PrepareBuildHandler);
          HandlerInvoked (Common BuildHandler);
          HandlerInvoked (Common CleanHandler);
          HandlerInvoked (Common UpdateHandler);
          HandlerInvoked (Common VersionHandler);
          ConsoleError [LStr "Unable to handle validly parsed docoptSpec:"];
          ConsoleDir {[ "deploy" := JsBool true ]} ];
      floating := [] |}).
Proof. reflexivity. Qed.

Lemma grows_HooksAllowed ctx : HooksAllowed (Appends anyEvent) anyEvent ctx.
Proof.
  intros _. split; [done|]. intros f c.
  apply (respects_callHook _ (Appends_refl _) (Appends_trans _) anyEvent).
  - apply Appends_emit.
  - done.
  - apply Appends_float.
Qed.

Lemma grows_lifecycle env ctx op : Respects (Appends anyEvent) (lifecycle env ctx op).
Proof.
  apply (respects_lifecycle _ (Appends_refl _) (Appends_trans _) anyEvent).
  - apply Appends_emit.
  - done.
  - done.
  - apply grows_HooksAllowed.
  - done.
  - intros _ f _. split; [done | apply Appends_unlink].
Qed.

(** A handler that runs a lifecycle method and then returns [true]. *)
Lemma grows_lifecycle_handler {A} env ctx (m : M A) op (b : bool) :
  (forall st, snd (m st) = snd (lifecycle env ctx op st)) ->
  Respects (Appends anyEvent) (if b then m ;;; ret true else ret false).
Proof.
  intros Hm. destruct b; [|apply respects_ret, Appends_refl].
  intros st. unfold bind, ret.
  pose proof (grows_lifecycle env ctx op st) as G. rewrite <- Hm in G.
  by destruct (m st) as [[a|e] s].
Qed.

Lemma snd_bind_ret {A B} (m : M A) (f : A -> B) st :
  snd ((a <- m ;; ret (f a)) st) = snd (m st).
Proof. unfold bind, ret. by destruct (m st) as [[a|e] s]. Qed.

Lemma grows_commonHandlers env ctx id h :
  (id, h) ∈ commonHandlers env -> Respects (Appends anyEvent) (h ctx).
Proof.
  unfold commonHandlers. rewrite !elem_of_cons, elem_of_nil.
  intros [H|[H|[H|[H|[H|[]]]]]]; injection H as -> ->.
  - apply (grows_lifecycle_handler env ctx _ OpPrepareBuild).
    intros st. simpl. by rewrite snd_bind_ret.
  - apply (grows_lifecycle_handler env ctx _ OpBuild).
    intros st. simpl. by rewrite snd_bind_ret.
  - apply (grows_lifecycle_handler env ctx _ OpClean).
    intros st. simpl. by rewrite snd_bind_ret.
  - apply (grows_lifecycle_handler env ctx _ OpUpdate).
    intros st. simpl. by rewrite snd_bind_ret.
  - unfold versionHandler. destruct (truthyProp (cliOptions ctx) "version");
      [|apply respects_ret, Appends_refl].
    apply (respects_bind _ (Appends_trans _)); [by apply Appends_emit|]. intros _.
    apply (respects_bind _ (Appends_trans _)); [apply respects_lift, Appends_refl|].
    intros v.
    apply (respects_bind _ (Appends_trans _)); [by apply Appends_emit|]. intros _.
    apply respects_ret, Appends_refl.
Qed.

Lemma respects_dispatch R hs ctx handled :
  (forall s, R s s) -> (forall a b c, R a b -> R b c -> R a c) ->
  (forall id, Respects R (emit (HandlerInvoked id))) ->
  (forall id h, (id, h) ∈ hs -> Respects R (h ctx)) ->
  Respects R (dispatch hs ctx handled).
Proof.
  intros Hrefl Htrans Hemit. revert handled.
  induction hs as [|[id h] rest IH]; intros handled Hh; simpl.
  - by apply respects_ret.
  - apply (respects_bind R Htrans); [apply Hemit|]. intros _.
    apply (respects_bind R Htrans); [apply (Hh id); left|].
    intros [|]; [by apply respects_ret|].
    apply IH. intros id' h' Hin. apply (Hh id'). by right.
Qed.

(** Whatever the custom handlers answered, the loop over the common
    handlers runs: it starts by calling [prepareBuildHandler]. *)
Lemma emit_then_grows {A} e (m : M A) st :
  Respects (Appends anyEvent) m ->
  exists evs, trace (snd ((emit e ;;; m) st)) = trace st ++ e :: evs.
Proof.
  intros Hm. unfold bind at 1. simpl.
  match goal with |- context [m ?s] => destruct (Hm s) as (evs & T & _) end.
  exists evs. rewrite T. simpl. by rewrite <- app_assoc.
Qed.

Lemma common_loop_starts env ctx handled st :
  exists evs,
    trace (snd (dispatch (commonHandlers env) ctx handled st)) =
    trace st ++ HandlerInvoked (Common PrepareBuildHandler) :: evs.
Proof.
  change (dispatch (commonHandlers env) ctx handled)
    with (emit (HandlerInvoked (Common PrepareBuildHandler)) ;;;
          handled' <- prepareBuildHandler env ctx ;;
          if handled' then ret true
          else dispatch (tail (commonHandlers env)) ctx handled').
  apply emit_then_grows.
  apply (respects_bind _ (Appends_trans _)).
  { apply (grows_commonHandlers env ctx (Common PrepareBuildHandler)). left. }
  intros [|]; [apply respects_ret, Appends_refl|].
  apply respects_dispatch.
  - apply Appends_refl.
  - apply Appends_trans.
  - intros id. by apply Appends_emit.
  - intros id h Hin. apply (grows_commonHandlers env ctx id h). by right.
Qed.

(** In general: once the arguments are parsed and the context is built,
    a custom handler that claims the request does not keep the common
    handlers from being called. *)
Lemma CLI_common_loop_not_guarded env chs hs doc opts context st st1 :
  grammarOf chs = Normal doc ->
  docopt_default env doc = Normal opts ->
  contextOf env chs opts = Normal context ->
  customHandlers chs = Some hs ->
  dispatch (numbered hs) context false st = (Normal true, st1) ->
  exists evs,
    trace (snd (CLI env chs st)) =
    trace st1 ++ HandlerInvoked (Common PrepareBuildHandler) :: evs.
Proof.
  intros Hdoc Hopts Hctx Hcustom Hclaim.
  unfold CLI, try_catch, dispatchBody, bind, liftCompletion.
  rewrite Hdoc, Hopts, Hctx.
  unfold resolveHandlers, bind. rewrite Hcustom, Hclaim.
  destruct (common_loop_starts env context true st1) as (evs & T).
  destruct (dispatch (commonHandlers env) context true st1) as [[[|]|e] s2];
    simpl in T |- *.
  - by exists evs.
  - exists (evs ++ [ConsoleError [LStr "Unable to handle validly parsed docoptSpec:"];
                    ConsoleDir opts]).
    rewrite T. by rewrite <- !app_assoc.
  - destruct e; simpl.
    + exists (evs ++ [ConsoleError [LStr message]]). rewrite T. by rewrite <- !app_assoc.
    + by exists evs.
    + exists (evs ++ [ConsoleError [LUndefined]]). rewrite T. by rewrite <- !app_assoc.
Qed.

(** C6.  The code at a handler that throws [undefined].  The exception
    is caught, but the [catch] block reads [e.message], which is a
    [TypeError] on [undefined]: nothing is logged, and the promise that
    [CLI] returned is rejected. *)
Theorem CLI_propagates_a_nullish_throw :
  CLI (Sample.world "/site" {[ "build" := JsBool true ]} Sample.noModules)
    throwingSpec (Sample.start []) =
  (Throw (ErrorObj "TypeError: Cannot read property 'message' of undefined"),
   {| files := []; trace := [HandlerInvoked (Custom 0)]; floating := [] |}).
Proof. reflexivity. Qed.

(** What does hold of the dispatcher boundary: whatever is thrown while
    parsing, building the context or running the handlers is caught, and
    unless it is [undefined] or [null], [CLI] logs and returns normally. *)
Lemma CLI_boundary env chs st :
  match fst (dispatchBody env chs st) with
  | Throw ThrownNullish =>
      fst (CLI env chs st) =
      Throw (ErrorObj "TypeError: Cannot read property 'message' of undefined")
  | _ => fst (CLI env chs st) = Normal tt
  end.
Proof.
  unfold CLI, try_catch.
  destruct (dispatchBody env chs st) as [[[]|[m| |r]] s]; reflexivity.
Qed.

Lemma CLI_logs_the_message env chs st message s :
  dispatchBody env chs st = (Throw (ErrorObj message), s) ->
  CLI env chs st =
  (Normal tt,
   {| files := files s;
      trace := trace s ++ [ConsoleError [LStr message]];
      floating := floating s |}).
Proof. intros H. unfold CLI, try_catch. by rewrite H. Qed.

(** The rejection of an [async] hook never reaches the dispatcher either:
    [pubctl build] with the throwing theme hook ends with nothing logged
    by [CLI] and the rejected promises still unhandled. *)
Example CLI_does_not_see_a_hook_rejection :
  CLI (Sample.world "/site" {[ "prepare-build" := JsBool true ]} rejectingThenPlain)
    {| specData := Sample.data; docoptSpec := None;
       customHandlers := None; prepareContext := None |}
    (Sample.start []) =
  (Normal tt,
   {| files := [];
      trace :=
        [ HandlerInvoked (Common PrepareBuildHandler);
          DynamicImport "file:///site/theme/pubctl-hook-build.ts";
          HookInvoked "/site/theme/pubctl-hook-build.ts" PREPARE;
          DynamicImport "file:///site/docs/pubctl-hook-build.ts";
          HookInvoked "/site/docs/pubctl-hook-build.ts" PREPARE;
          HookEffect "/site/docs/pubctl-hook-build.ts" "docs indexed" ];
      floating :=
        [ {| fp_file := "/site/theme/pubctl-hook-build.ts";
             fp_after := [];
             fp_settles := Rejected (ErrorObj "theme hook failed") |} ] |}).
Proof. reflexivity. Qed.

(** What does hold of the first-match chain: within one loop, the
    handlers after the one that claims the request are not called. *)
Lemma dispatch_claimed id h rest ctx handled st st1 :
  h ctx (snd (emit (HandlerInvoked id) st)) = (Normal true, st1) ->
  dispatch ((id, h) :: rest) ctx handled st = (Normal true, st1).
Proof.
  intros H.
  change (dispatch ((id, h) :: rest) ctx handled st)
    with ((handled' <- h ctx ;;
           if handled' then ret true else dispatch rest ctx handled')
            (snd (emit (HandlerInvoked id) st))).
  unfold bind. by rewrite H.
Qed.

(** * Further properties of the code *)

(** ** Exact runs of the small steps *)

Lemma logged_nil st : logged st [] = st.
Proof. destruct st. unfold logged. simpl. by rewrite app_nil_r. Qed.

Lemma logged_logged st a b : logged (logged st a) b = logged st (a ++ b).
Proof. unfold logged. simpl. by rewrite app_assoc. Qed.

Lemma emit_eq e st : emit e st = (Normal tt, logged st [e]).
Proof. reflexivity. Qed.

Lemma reportShellCmd_eq env ctx cmd st :
  reportShellCmd env ctx cmd st = (Normal cmd, logged st (shellReport env ctx cmd)).
Proof.
  unfold reportShellCmd, shellReport, when, bind, console_log.
  destruct (isVerbose ctx && negb (isDryRun ctx)).
  - by rewrite emit_eq.
  - unfold ret. by rewrite logged_nil.
Qed.

Lemma runShellCommand_ok env ctx cmd st :
  (isDryRun ctx = false -> shellOutcome env cmd = None) ->
  runShellCommand env cmd (shellOptions ctx) st = (Normal tt, logged st (shellRun ctx cmd)).
Proof.
  intros Hok. unfold runShellCommand, shellRun, bind. rewrite emit_eq.
  cbn [dryRun shellOptions]. destruct (isDryRun ctx) eqn:Hdry; [done|].
  rewrite emit_eq, (Hok eq_refl). unfold ret. by rewrite logged_logged.
Qed.

Lemma runShellCommand_fails env ctx cmd e st :
  isDryRun ctx = false -> shellOutcome env cmd = Some e ->
  runShellCommand env cmd (shellOptions ctx) st = (Throw e, logged st (shellRun ctx cmd)).
Proof.
  intros Hdry Hfail. unfold runShellCommand, shellRun, bind. rewrite emit_eq.
  cbn [dryRun shellOptions]. rewrite Hdry, emit_eq, Hfail.
  unfold throw. by rewrite logged_logged.
Qed.

(** ** The common handlers *)

Lemma common_declines env ctx c h st :
  (Common c, h) ∈ commonHandlers env ->
  truthyProp (cliOptions ctx) (commonKey c) = false ->
  h ctx st = (Normal false, st).
Proof.
  unfold commonHandlers. rewrite !elem_of_cons, elem_of_nil.
  intros [H|[H|[H|[H|[H|[]]]]]] Hkey; injection H as -> ->; simpl in Hkey.
  - unfold prepareBuildHandler. by rewrite Hkey.
  - unfold buildHandler. by rewrite Hkey.
  - unfold cleanHandler. by rewrite Hkey.
  - unfold updateHandler. by rewrite Hkey.
  - unfold versionHandler. by rewrite Hkey.
Qed.

Lemma then_true_never_declines {A} (m : M A) st :
  fst ((m ;;; ret true) st) <> Normal false.
Proof. unfold bind, ret. by destruct (m st) as [[a|e] s]. Qed.

Lemma common_takes_its_key env ctx c h st :
  (Common c, h) ∈ commonHandlers env ->
  truthyProp (cliOptions ctx) (commonKey c) = true ->
  fst (h ctx st) <> Normal false.
Proof.
  unfold commonHandlers. rewrite !elem_of_cons, elem_of_nil.
  intros [H|[H|[H|[H|[H|[]]]]]] Hkey; injection H as -> ->; simpl in Hkey.
  - unfold prepareBuildHandler. rewrite Hkey. apply then_true_never_declines.
  - unfold buildHandler. rewrite Hkey. apply then_true_never_declines.
  - unfold cleanHandler. rewrite Hkey. apply then_true_never_declines.
  - unfold updateHandler. rewrite Hkey. apply then_true_never_declines.
  - unfold versionHandler. rewrite Hkey. unfold bind, liftCompletion, console_log.
    rewrite emit_eq. by destruct (determineVersion env (importMetaURL env)).
Qed.

(** X1.  A common handler decides on its own command key alone.  When
    the key is absent or falsy in the parsed options, the handler declines
    (returns nothing) and does nothing at all: the state is untouched.
    When the key is set, the handler never declines: it returns [true], or
    fails with what its lifecycle operation threw. *)
Theorem common_handler_claims_iff_key_set
    (env : Env) (ctx : PublishCommandHandlerContext) (c : CommonHandler)
    (h : PublishCommandHandler) (st : State) :
  (Common c, h) ∈ commonHandlers env ->
  (truthyProp (cliOptions ctx) (commonKey c) = false -> h ctx st = (Normal false, st)) /\
  (truthyProp (cliOptions ctx) (commonKey c) = true -> fst (h ctx st) <> Normal false).
Proof.
  intros Hin. split.
  - intros Hkey. by apply (common_declines env ctx c).
  - intros Hkey. by apply (common_takes_its_key env ctx c).
Qed.

Lemma common_handler_claims_iff_key_set_witness :
  cleanHandler siteEnv realCtx (Sample.start ["/site/public"]) <>
    (Normal false, Sample.start ["/site/public"]) /\
  buildHandler siteEnv realCtx (Sample.start ["/site/public"]) =
    (Normal false, Sample.start ["/site/public"]).
Proof.
  split.
  - intros H.
    apply (proj2 (common_handler_claims_iff_key_set siteEnv realCtx CleanHandler
                    (cleanHandler siteEnv) (Sample.start ["/site/public"])
                    ltac:(right; right; left)) eq_refl).
    by rewrite H.
  - apply (proj1 (common_handler_claims_iff_key_set siteEnv realCtx BuildHandler
                    (buildHandler siteEnv) (Sample.start ["/site/public"])
                    ltac:(right; left))).
    reflexivity.
Defined.

(** ** The loop over the common handlers *)

Lemma handlersCalled_app a b : handlersCalled (a ++ b) = handlersCalled a ++ handlersCalled b.
Proof. apply omap_app. Qed.

Lemma handlersCalled_none evs : Forall notHandlerEvent evs -> handlersCalled evs = [].
Proof.
  induction 1 as [|e evs He _ IH]; [done|].
  unfold handlersCalled in *. simpl. by destruct e.
Qed.

Lemma nohandler_HooksAllowed ctx : HooksAllowed (Appends notHandlerEvent) notHandlerEvent ctx.
Proof.
  intros _. split; [done|]. intros f c.
  apply (respects_callHook _ (Appends_refl _) (Appends_trans _) notHandlerEvent).
  - apply Appends_emit.
  - done.
  - apply Appends_float.
Qed.

(** No lifecycle operation calls a command handler. *)
Lemma nohandler_lifecycle env ctx op :
  Respects (Appends notHandlerEvent) (lifecycle env ctx op).
Proof.
  apply (respects_lifecycle _ (Appends_refl _) (Appends_trans _) notHandlerEvent).
  - apply Appends_emit.
  - done.
  - done.
  - apply nohandler_HooksAllowed.
  - done.
  - intros _ f _. split; [done | apply Appends_unlink].
Qed.

Lemma nohandler_lifecycle_handler {A} env ctx (m : M A) op (b : bool) :
  (forall st, snd (m st) = snd (lifecycle env ctx op st)) ->
  Respects (Appends notHandlerEvent) (if b then m ;;; ret true else ret false).
Proof.
  intros Hm. destruct b; [|apply respects_ret, Appends_refl].
  intros st. unfold bind, ret.
  pose proof (nohandler_lifecycle env ctx op st) as G. rewrite <- Hm in G.
  by destruct (m st) as [[a|e] s].
Qed.

Lemma nohandler_commonHandlers env ctx id h :
  (id, h) ∈ commonHandlers env -> Respects (Appends notHandlerEvent) (h ctx).
Proof.
  unfold commonHandlers. rewrite !elem_of_cons, elem_of_nil.
  intros [H|[H|[H|[H|[H|[]]]]]]; injection H as -> ->.
  - apply (nohandler_lifecycle_handler env ctx _ OpPrepareBuild).
    intros st. simpl. by rewrite snd_bind_ret.
  - apply (nohandler_lifecycle_handler env ctx _ OpBuild).
    intros st. simpl. by rewrite snd_bind_ret.
  - apply (nohandler_lifecycle_handler env ctx _ OpClean).
    intros st. simpl. by rewrite snd_bind_ret.
  - apply (nohandler_lifecycle_handler env ctx _ OpUpdate).
    intros st. simpl. by rewrite snd_bind_ret.
  - unfold versionHandler. destruct (truthyProp (cliOptions ctx) "version");
      [|apply respects_ret, Appends_refl].
    apply (respects_bind _ (Appends_trans _)); [by apply Appends_emit|]. intros _.
    apply (respects_bind _ (Appends_trans _)); [apply respects_lift, Appends_refl|].
    intros v.
    apply (respects_bind _ (Appends_trans _)); [by apply Appends_emit|]. intros _.
    apply respects_ret, Appends_refl.
Qed.

(** The first-match loop over any part of [commonHandlers]. *)
Lemma dispatch_tried env ctx cs hs :
  Forall2 (fun c p => p = (Common c, p.2) /\ (Common c, p.2) ∈ commonHandlers env) cs hs ->
  forall handled st,
  exists evs,
    trace (snd (dispatch hs ctx handled st)) = trace st ++ evs /\
    handlersCalled evs = map Common (triedUntilClaim (cliOptions ctx) cs).
Proof.
  induction 1 as [|c [id h] cs hs [Hid Hin] _ IH]; intros handled st.
  - exists []. simpl. by rewrite app_nil_r.
  - simpl in Hid, Hin. injection Hid as ->.
    change (dispatch ((Common c, h) :: hs) ctx handled st)
      with ((handled' <- h ctx ;;
             if handled' then ret true else dispatch hs ctx handled')
              (logged st [HandlerInvoked (Common c)])).
    simpl. destruct (truthyProp (cliOptions ctx) (commonKey c)) eqn:Hkey.
    + pose proof (common_takes_its_key env ctx c h
                    (logged st [HandlerInvoked (Common c)]) Hin Hkey) as Hnd.
      pose proof (nohandler_commonHandlers env ctx _ _ Hin
                    (logged st [HandlerInvoked (Common c)])) as (e1 & T1 & N1).
      unfold bind.
      destruct (h ctx (logged st [HandlerInvoked (Common c)])) as [[[|]|e] s1];
        simpl in *; try done.
      * exists (HandlerInvoked (Common c) :: e1). split.
        { rewrite T1. by rewrite <- app_assoc. }
        change (HandlerInvoked (Common c) :: e1) with ([HandlerInvoked (Common c)] ++ e1).
        by rewrite handlersCalled_app, (handlersCalled_none e1 N1).
      * exists (HandlerInvoked (Common c) :: e1). split.
        { rewrite T1. by rewrite <- app_assoc. }
        change (HandlerInvoked (Common c) :: e1) with ([HandlerInvoked (Common c)] ++ e1).
        by rewrite handlersCalled_app, (handlersCalled_none e1 N1).
    + unfold bind. rewrite (common_declines env ctx c h _ Hin Hkey).
      destruct (IH false (logged st [HandlerInvoked (Common c)])) as (evs & T & Hc).
      exists (HandlerInvoked (Common c) :: evs). split.
      { rewrite T. simpl. by rewrite <- app_assoc. }
      change (HandlerInvoked (Common c) :: evs) with ([HandlerInvoked (Common c)] ++ evs).
      rewrite handlersCalled_app, Hc. done.
Qed.

(** X2.  The common handlers are tried in the fixed order prepare-build,
    build, clean, update, version, and the loop stops at the first one
    whose key is set: the handlers called are exactly those up to and
    including it (all five when no key is set), each once, whether that
    handler succeeds or throws.  In particular, of two commands set at
    once only the earlier one runs. *)
Theorem common_loop_first_match
    (env : Env) (ctx : PublishCommandHandlerContext) (handled : bool) (st : State) :
  exists evs,
    trace (snd (dispatch (commonHandlers env) ctx handled st)) = trace st ++ evs /\
    handlersCalled evs = map Common (triedUntilClaim (cliOptions ctx) commonOrder).
Proof.
  apply (dispatch_tried env). unfold commonHandlers, commonOrder.
  repeat (constructor;
          [split; [reflexivity | rewrite !elem_of_cons; simpl; auto 10]|]).
  constructor.
Qed.

(** ** Whole runs of [CLI] *)

Lemma CLI_after_setup env chs doc opts ctx st :
  grammarOf chs = Normal doc ->
  docopt_default env doc = Normal opts ->
  contextOf env chs opts = Normal ctx ->
  CLI env chs st = try_catch (resolveHandlers env chs opts ctx) reportDispatchError st.
Proof.
  intros Hdoc Hopts Hctx.
  unfold CLI, try_catch, dispatchBody, bind, liftCompletion.
  by rewrite Hdoc, Hopts, Hctx.
Qed.

Lemma resolveHandlers_after_custom env chs opts ctx st s1 :
  customLoop chs ctx st = (Normal false, s1) ->
  resolveHandlers env chs opts ctx st =
  (handled <- dispatch (commonHandlers env) ctx false ;;
   when (negb handled)
        (console_error [LStr "Unable to handle validly parsed docoptSpec:"] ;;;
         console_dir opts)) s1.
Proof.
  intros H. unfold resolveHandlers. fold (customLoop chs ctx).
  unfold bind at 1. by rewrite H.
Qed.

(** A handler that declines is passed over. *)
Lemma dispatch_skip id h rest ctx handled st :
  (forall s, h ctx s = (Normal false, s)) ->
  dispatch ((id, h) :: rest) ctx handled st =
  dispatch rest ctx false (logged st [HandlerInvoked id]).
Proof.
  intros H.
  change (dispatch ((id, h) :: rest) ctx handled st)
    with ((handled' <- h ctx ;;
           if handled' then ret true else dispatch rest ctx handled')
            (logged st [HandlerInvoked id])).
  unfold bind. by rewrite H.
Qed.

Lemma common_skip env ctx c h rest handled st :
  (Common c, h) ∈ commonHandlers env ->
  truthyProp (cliOptions ctx) (commonKey c) = false ->
  dispatch ((Common c, h) :: rest) ctx handled st =
  dispatch rest ctx false (logged st [HandlerInvoked (Common c)]).
Proof.
  intros Hin Hkey. apply dispatch_skip. intros s. by apply (common_declines env ctx c).
Qed.

Ltac common_in := unfold commonHandlers; rewrite !elem_of_cons; simpl; auto 10.

Ltac skip_common env :=
  rewrite (common_skip env) by (first [common_in | done]); rewrite ?logged_logged.

(** X3.  A request no handler claims is not an error.  When the
    arguments parse, the context is built, the custom handlers (if any)
    decline and none of the five command keys is set, [CLI] calls the five
    common handlers in order, none of which does anything, then prints
    "Unable to handle validly parsed docoptSpec:" and the parsed options on
    the console, and returns normally. *)
Theorem CLI_unhandled_request_is_reported
    (env : Env) (chs : CommandHandlerSpecOptions) (doc : string)
    (opts : gmap string JsVal) (ctx : PublishCommandHandlerContext) (st s1 : State) :
  grammarOf chs = Normal doc ->
  docopt_default env doc = Normal opts ->
  contextOf env chs opts = Normal ctx ->
  customLoop chs ctx st = (Normal false, s1) ->
  (forall c, truthyProp (cliOptions ctx) (commonKey c) = false) ->
  CLI env chs st =
  (Normal tt,
   logged s1 (allCommonCalled ++
              [ConsoleError [LStr "Unable to handle validly parsed docoptSpec:"];
               ConsoleDir opts])).
Proof.
  intros Hdoc Hopts Hctx Hcustom Hkeys.
  rewrite (CLI_after_setup env chs doc opts ctx) by done.
  unfold try_catch. rewrite (resolveHandlers_after_custom env chs opts ctx st s1) by done.
  unfold bind at 1. unfold commonHandlers.
  do 5 skip_common env.
  simpl. unfold logged. simpl. by rewrite <- !app_assoc.
Qed.

Lemma CLI_unhandled_request_is_reported_witness :
  CLI (Sample.world "/site" {[ "deploy" := JsBool true ]} Sample.noModules)
    unknownSpec (Sample.start []) =
  (Normal tt,
   logged (Sample.start [])
     (allCommonCalled ++
      [ConsoleError [LStr "Unable to handle validly parsed docoptSpec:"];
       ConsoleDir {[ "deploy" := JsBool true ]}])).
Proof.
  apply (CLI_unhandled_request_is_reported
           (Sample.world "/site" {[ "deploy" := JsBool true ]} Sample.noModules)
           unknownSpec (defaultDocoptSpec Sample.data) {[ "deploy" := JsBool true ]}
           (newContext (Sample.world "/site" {[ "deploy" := JsBool true ]} Sample.noModules)
              Sample.data {[ "deploy" := JsBool true ]})
           (Sample.start []) (Sample.start [])); try reflexivity.
  intros c. by destruct c.
Defined.

(** X4.  [pubctl version] runs no lifecycle method.  When only the
    [version] key is set (and the custom handlers, if any, decline), the
    four command handlers before [versionHandler] are passed over, two
    lines are printed, the tool's version from the spec options and the
    library's version as resolved from the repository tag, and [CLI]
    returns; no module is loaded, no command run, no file touched. *)
Theorem CLI_version_prints_two_versions
    (env : Env) (chs : CommandHandlerSpecOptions) (doc : string)
    (opts : gmap string JsVal) (ctx : PublishCommandHandlerContext) (st s1 : State)
    (v : string) :
  grammarOf chs = Normal doc ->
  docopt_default env doc = Normal opts ->
  contextOf env chs opts = Normal ctx ->
  customLoop chs ctx st = (Normal false, s1) ->
  (forall c, c <> VersionHandler -> truthyProp (cliOptions ctx) (commonKey c) = false) ->
  truthyProp (cliOptions ctx) "version" = true ->
  determineVersion env (importMetaURL env) = Normal v ->
  CLI env chs st =
  (Normal tt,
   logged s1 (allCommonCalled ++
              [ConsoleLog [LStr ("pubctl " +:+ paint env Yellow (version (chsOptions ctx)))];
               ConsoleLog [LStr ("hugo-aide " +:+ paint env Yellow v)]])).
Proof.
  intros Hdoc Hopts Hctx Hcustom Hkeys Hversion Hv.
  rewrite (CLI_after_setup env chs doc opts ctx) by done.
  unfold try_catch. rewrite (resolveHandlers_after_custom env chs opts ctx st s1) by done.
  unfold bind at 1. unfold commonHandlers.
  do 4 (rewrite (common_skip env) by (first [common_in | by apply Hkeys]);
        rewrite ?logged_logged).
  simpl. unfold bind at 1. simpl. unfold versionHandler. rewrite Hversion.
  unfold bind, liftCompletion, console_log. rewrite Hv. simpl.
  unfold logged. simpl. by rewrite <- !app_assoc.
Qed.

Lemma CLI_version_prints_two_versions_witness :
  CLI (Sample.world "/site" {[ "version" := JsBool true ]} Sample.noModules)
    unknownSpec (Sample.start ["/site/public"]) =
  (Normal tt,
   logged (Sample.start ["/site/public"])
     (allCommonCalled ++
      [ConsoleLog [LStr "pubctl <yellow>v0.1.0"];
       ConsoleLog [LStr "hugo-aide <yellow>v0.2.0"]])).
Proof.
  apply (CLI_version_prints_two_versions
           (Sample.world "/site" {[ "version" := JsBool true ]} Sample.noModules)
           unknownSpec (defaultDocoptSpec Sample.data) {[ "version" := JsBool true ]}
           (newContext (Sample.world "/site" {[ "version" := JsBool true ]} Sample.noModules)
              Sample.data {[ "version" := JsBool true ]})
           (Sample.start ["/site/public"]) (Sample.start ["/site/public"]) "v0.2.0");
    try reflexivity.
  intros c Hc. by destruct c.
Defined.

(** X5.  A failure before any handler runs ends the invocation with one
    line on the error console.  When the grammar generator, the argument
    parser or the context factory throws an [Error], [CLI] prints its
    message and returns normally: no handler is called and nothing else
    happens. *)
Theorem CLI_reports_setup_failure
    (env : Env) (chs : CommandHandlerSpecOptions) (message : string) (st : State) :
  (grammarOf chs = Throw (ErrorObj message) \/
   exists doc, grammarOf chs = Normal doc /\
     (docopt_default env doc = Throw (ErrorObj message) \/
      exists opts, docopt_default env doc = Normal opts /\
                   contextOf env chs opts = Throw (ErrorObj message))) ->
  CLI env chs st = (Normal tt, logged st [ConsoleError [LStr message]]).
Proof.
  unfold CLI, try_catch, dispatchBody, bind, liftCompletion.
  intros [Hdoc | (doc & Hdoc & [Hopts | (opts & Hopts & Hctx)])].
  - by rewrite Hdoc.
  - by rewrite Hdoc, Hopts.
  - by rewrite Hdoc, Hopts, Hctx.
Qed.

Lemma CLI_reports_setup_failure_witness :
  CLI badArgsEnv unknownSpec (Sample.start []) =
  (Normal tt, logged (Sample.start []) [ConsoleError [LStr "Usage: pubctl build"]]).
Proof.
  apply CLI_reports_setup_failure.
  right. exists (defaultDocoptSpec Sample.data). split; [reflexivity|]. by left.
Defined.

(** ** [build], [update] and [clean] as wholes *)

Lemma hooks_none env ctx step entries st :
  expandGlobSync env (cwd env) (buildLifecyleHandlerGlob ctx) = (entries, None) ->
  Forall (fun we => isFile we = false) entries ->
  handleProjectBuildHooks env ctx step st = (Normal [], st).
Proof.
  intros Hglob Hnone. unfold handleProjectBuildHooks. rewrite Hglob.
  unfold bind. by rewrite runHooks_no_files.
Qed.

Lemma build_without_hooks env ctx entries st :
  expandGlobSync env (cwd env) (buildLifecyleHandlerGlob ctx) = (entries, None) ->
  Forall (fun we => isFile we = false) entries ->
  (isDryRun ctx = false -> shellOutcome env "hugox" = None) ->
  build env ctx st =
  (Normal tt, logged st (shellReport env ctx "hugox" ++ shellRun ctx "hugox")).
Proof.
  intros Hglob Hnone Hok. unfold build, prepareBuild, finalizeBuild.
  unfold bind at 1. rewrite (hooks_none env ctx PREPARE entries) by done.
  unfold bind at 1. rewrite reportShellCmd_eq.
  unfold bind at 1. rewrite runShellCommand_ok by done.
  unfold bind. rewrite (hooks_none env ctx FINALIZE entries) by done.
  unfold ret. by rewrite logged_logged.
Qed.

(** X6.  [pubctl build] on a site without hook files, end to end.  When
    only [build] is set and the hook pattern matches no regular file,
    [prepareBuildHandler] declines, [buildHandler] runs the generation
    command [hugox] exactly once with the context's output and dry-run
    options (echoing it first when verbose and not a dry run) and claims
    the request; the three later handlers are not called and nothing is
    reported as unhandled. *)
Theorem CLI_build_without_hooks
    (env : Env) (chs : CommandHandlerSpecOptions) (doc : string)
    (opts : gmap string JsVal) (ctx : PublishCommandHandlerContext)
    (entries : list WalkEntry) (st s1 : State) :
  grammarOf chs = Normal doc ->
  docopt_default env doc = Normal opts ->
  contextOf env chs opts = Normal ctx ->
  customLoop chs ctx st = (Normal false, s1) ->
  truthyProp (cliOptions ctx) "prepare-build" = false ->
  truthyProp (cliOptions ctx) "build" = true ->
  expandGlobSync env (cwd env) (buildLifecyleHandlerGlob ctx) = (entries, None) ->
  Forall (fun we => isFile we = false) entries ->
  (isDryRun ctx = false -> shellOutcome env "hugox" = None) ->
  CLI env chs st =
  (Normal tt,
   logged s1 ([HandlerInvoked (Common PrepareBuildHandler);
               HandlerInvoked (Common BuildHandler)] ++
              shellReport env ctx "hugox" ++ shellRun ctx "hugox")).
Proof.
  intros Hdoc Hopts Hctx Hcustom Hprep Hbuild Hglob Hnone Hok.
  rewrite (CLI_after_setup env chs doc opts ctx) by done.
  unfold try_catch. rewrite (resolveHandlers_after_custom env chs opts ctx st s1) by done.
  unfold bind at 1. unfold commonHandlers.
  skip_common env.
  rewrite (dispatch_claimed _ _ _ _ _ _
             (logged s1 ([HandlerInvoked (Common PrepareBuildHandler);
                          HandlerInvoked (Common BuildHandler)] ++
                         shellReport env ctx "hugox" ++ shellRun ctx "hugox"))).
  - reflexivity.
  - unfold buildHandler. rewrite Hbuild. unfold bind.
    rewrite (build_without_hooks env ctx entries) by done.
    unfold ret, logged. simpl. by rewrite <- !app_assoc.
Qed.

Lemma CLI_build_without_hooks_witness :
  CLI (Sample.world "/elsewhere" {[ "build" := JsBool true; "--verbose" := JsBool true ]}
         Sample.noModules)
    unknownSpec (Sample.start []) =
  (Normal tt,
   logged (Sample.start [])
     [ HandlerInvoked (Common PrepareBuildHandler);
       HandlerInvoked (Common BuildHandler);
       ConsoleLog [LStr "<brightCyan>hugox"];
       ShellCommand "hugox" {| output := CliVerboseOutput; dryRun := false |};
       CommandExecuted "hugox" ]).
Proof.
  rewrite (CLI_build_without_hooks
           (Sample.world "/elsewhere" {[ "build" := JsBool true; "--verbose" := JsBool true ]}
              Sample.noModules)
           unknownSpec (defaultDocoptSpec Sample.data)
           {[ "build" := JsBool true; "--verbose" := JsBool true ]}
           (newContext
              (Sample.world "/elsewhere"
                 {[ "build" := JsBool true; "--verbose" := JsBool true ]} Sample.noModules)
              Sample.data {[ "build" := JsBool true; "--verbose" := JsBool true ]})
           [] (Sample.start []) (Sample.start [])); try reflexivity.
  constructor.
Defined.

Lemma collectRelNames_total env ctx entries names result st :
  relativeNames env ctx (map path (List.filter isFile entries)) names ->
  collectRelNames env ctx entries result st = (Normal (result ++ names), st).
Proof.
  revert names result. induction entries as [|we rest IH]; intros names result H; simpl in *.
  - inversion H. by rewrite app_nil_r.
  - destruct (isFile we); [|by apply IH].
    simpl in H. inversion H as [|p n ps ns Hrel Hrest]; subst.
    unfold bind, liftCompletion. rewrite Hrel, (IH ns) by done.
    by rewrite <- app_assoc.
Qed.

(** X7.  [update] is one shell call.  When the glob expansion completes
    and the hook names can be computed, [update] runs the single command
    [udd pubctl.ts <names separated by blanks>], the names being those of
    the hook files found from the working directory, relative to the
    project home and in discovery order (with no hook file the command is
    "udd pubctl.ts " with its trailing blank); in a dry run the command is
    handed to the runner with [dryRun: true] and not executed. *)
Theorem update_runs_one_command
    (env : Env) (ctx : PublishCommandHandlerContext) (entries : list WalkEntry)
    (names : list string) (st : State) :
  expandGlobSync env (cwd env) (buildLifecyleHandlerGlob ctx) = (entries, None) ->
  relativeNames env ctx (map path (List.filter isFile entries)) names ->
  (isDryRun ctx = false ->
   shellOutcome env ("udd pubctl.ts " +:+ join " " names) = None) ->
  update env ctx st =
  (Normal tt,
   logged st (shellReport env ctx ("udd pubctl.ts " +:+ join " " names) ++
              shellRun ctx ("udd pubctl.ts " +:+ join " " names))).
Proof.
  intros Hglob Hnames Hok. unfold update, getPrepareBuildSubmoduleRelNames.
  rewrite Hglob. unfold bind at 1. unfold bind at 1.
  rewrite (collectRelNames_total env ctx entries names) by done. simpl.
  unfold bind. rewrite reportShellCmd_eq, runShellCommand_ok by done.
  by rewrite logged_logged.
Qed.

Lemma update_runs_one_command_witness :
  update siteEnv (newContext siteEnv siteData {[ "update" := JsBool true ]})
    (Sample.start []) =
  (Normal tt,
   logged (Sample.start [])
     [ ShellCommand "udd pubctl.ts theme/pubctl-hook-build.ts docs/pubctl-hook-build.ts"
         {| output := QuietOutput; dryRun := false |};
       CommandExecuted
         "udd pubctl.ts theme/pubctl-hook-build.ts docs/pubctl-hook-build.ts" ]).
Proof.
  rewrite (update_runs_one_command siteEnv
             (newContext siteEnv siteData {[ "update" := JsBool true ]})
             Sample.tree
             ["theme/pubctl-hook-build.ts"; "docs/pubctl-hook-build.ts"]
             (Sample.start [])).
  - reflexivity.
  - vm_compute. reflexivity.
  - repeat constructor.
  - reflexivity.
Defined.

(** X8.  [update] only looks for the hook files: whatever the outcome
    (also when the expansion or the command fails), it loads no module,
    calls no hook, deletes nothing and leaves no promise behind; all it
    leaves in the trace is console output and its shell call. *)
Theorem update_never_loads_hooks
    (env : Env) (ctx : PublishCommandHandlerContext) (st : State) :
  files (snd (update env ctx st)) = files st /\
  floating (snd (update env ctx st)) = floating st /\
  Appends updateEvent st (snd (update env ctx st)).
Proof.
  split; [|split].
  - apply (respects_update SameFiles SameFiles_refl SameFiles_trans anyEvent);
      first [done | intros e _; apply SameFiles_emit].
  - apply (respects_update SameFloating SameFloating_refl SameFloating_trans anyEvent);
      first [done | intros e _; apply SameFloating_emit].
  - apply (respects_update _ (Appends_refl _) (Appends_trans _) updateEvent);
      first [done | apply Appends_emit].
Qed.

(** X9.  [build] stops at the first stage that fails.  If the prepare
    stage throws (an error of the hook location), [build] throws the same
    and the generation command is never started.  If the prepare stage
    completes and the shell runner throws on [hugox], [build] throws the
    runner's error right after the command: no finalize hook is loaded or
    called. *)
Theorem build_stops_at_first_failure
    (env : Env) (ctx : PublishCommandHandlerContext) (st s1 : State) (e : Thrown) :
  (prepareBuild env ctx st = (Throw e, s1) -> build env ctx st = (Throw e, s1)) /\
  (forall names,
     prepareBuild env ctx st = (Normal names, s1) ->
     isDryRun ctx = false ->
     shellOutcome env "hugox" = Some e ->
     build env ctx st =
     (Throw e, logged s1 (shellReport env ctx "hugox" ++ shellRun ctx "hugox"))).
Proof.
  split.
  - intros H. unfold build, bind. by rewrite H.
  - intros names H Hdry Hfail. unfold build. unfold bind at 1. rewrite H.
    unfold bind at 1. rewrite reportShellCmd_eq.
    unfold bind. rewrite (runShellCommand_fails env ctx "hugox" e) by done.
    by rewrite logged_logged.
Qed.

Lemma build_stops_at_first_failure_witness :
  build (brokenShellEnv slowThenPlain)
    (newContext siteEnv Sample.data {[ "build" := JsBool true ]}) (Sample.start []) =
  (Throw (ErrorObj "exit status 1"),
   {| files := [];
      trace :=
        [ DynamicImport "file:///site/theme/pubctl-hook-build.ts";
          HookInvoked "/site/theme/pubctl-hook-build.ts" PREPARE;
          DynamicImport "file:///site/docs/pubctl-hook-build.ts";
          HookInvoked "/site/docs/pubctl-hook-build.ts" PREPARE;
          HookEffect "/site/docs/pubctl-hook-build.ts" "docs indexed";
          ShellCommand "hugox" {| output := QuietOutput; dryRun := false |};
          CommandExecuted "hugox" ];
      floating :=
        [ {| fp_file := "/site/theme/pubctl-hook-build.ts";
             fp_after := ["theme assets written"];
             fp_settles := Fulfilled |} ] |}).
Proof.
  rewrite (proj2 (build_stops_at_first_failure (brokenShellEnv slowThenPlain)
                    (newContext siteEnv Sample.data {[ "build" := JsBool true ]})
                    (Sample.start [])
                    (snd (prepareBuild (brokenShellEnv slowThenPlain)
                            (newContext siteEnv Sample.data {[ "build" := JsBool true ]})
                            (Sample.start [])))
                    (ErrorObj "exit status 1"))
             ["theme/pubctl-hook-build.ts"; "docs/pubctl-hook-build.ts"]).
  - reflexivity.
  - vm_compute. reflexivity.
  - reflexivity.
  - reflexivity.
Defined.

Lemma clean_fails_with_the_command env ctx e st :
  isDryRun ctx = false ->
  shellOutcome env "hugox mod clean --all" = Some e ->
  clean env ctx st =
  (Throw e,
   logged st (shellReport env ctx "hugox mod clean --all" ++
              shellRun ctx "hugox mod clean --all")).
Proof.
  intros Hdry Hfail. unfold clean. unfold bind at 1. rewrite reportShellCmd_eq.
  unfold bind. rewrite (runShellCommand_fails env ctx _ e) by done.
  by rewrite logged_logged.
Qed.

(** X10.  [clean] deletes only after the module clean command has
    succeeded: when the shell runner throws on [hugox mod clean --all],
    [clean] throws the runner's error and no target is looked at, printed
    or deleted. *)
Theorem clean_deletes_nothing_when_command_fails
    (env : Env) (ctx : PublishCommandHandlerContext) (e : Thrown) (st : State) :
  isDryRun ctx = false ->
  shellOutcome env "hugox mod clean --all" = Some e ->
  clean env ctx st =
  (Throw e,
   logged st (shellReport env ctx "hugox mod clean --all" ++
              shellRun ctx "hugox mod clean --all")).
Proof. apply clean_fails_with_the_command. Qed.

Lemma clean_deletes_nothing_when_command_fails_witness :
  files (snd (clean (brokenShellEnv Sample.noModules) realCtx
                (Sample.start ["/site/go.sum"; "/site/public"]))) =
  ["/site/go.sum"; "/site/public"].
Proof.
  rewrite (clean_deletes_nothing_when_command_fails (brokenShellEnv Sample.noModules)
             realCtx (ErrorObj "exit status 1")
             (Sample.start ["/site/go.sum"; "/site/public"])).
  - reflexivity.
  - reflexivity.
  - reflexivity.
Defined.

(** ** The order of the stages of [build] *)

Lemma step_callHook step f c : Respects (Appends (stepEvent step)) (callHook f c).
Proof.
  apply (respects_callHook _ (Appends_refl _) (Appends_trans _) (stepEvent step)).
  - apply Appends_emit.
  - done.
  - apply Appends_float.
Qed.

Lemma step_log step args : Respects (Appends (stepEvent step)) (console_log args).
Proof. by apply Appends_emit. Qed.

Lemma step_useModule env ctx step we name module :
  Respects (Appends (stepEvent step)) (useModule env ctx step we name module).
Proof.
  apply (respects_bind _ (Appends_trans _)).
  { apply respects_when; [apply Appends_refl|]. intros _. apply step_log. }
  intros _. apply respects_when; [apply Appends_refl|]. intros _.
  destruct (default module) as [|handler]; [apply step_log|].
  apply (respects_bind _ (Appends_trans _)); [by apply Appends_emit|]. intros _.
  apply (respects_bind _ (Appends_trans _)); [apply step_callHook|]. intros _.
  apply respects_when; [apply Appends_refl|]. intros _. apply step_log.
Qed.

Lemma step_tryHook env ctx step we name :
  Respects (Appends (stepEvent step))
           (try_catch (loadAndRunHook env ctx step we name) (reportHookError env name)).
Proof.
  apply (respects_try_catch _ (Appends_trans _)).
  - apply (respects_bind _ (Appends_trans _)); [by apply Appends_emit|]. intros _.
    apply (respects_bind _ (Appends_trans _)); [apply respects_lift, Appends_refl|].
    intros module. apply step_useModule.
  - intros e. apply (respects_bind _ (Appends_trans _)); [apply step_log|].
    intros _. apply step_log.
Qed.

Lemma step_runHooks env ctx step entries result :
  Respects (Appends (stepEvent step)) (runHooks env ctx step entries result).
Proof.
  revert result. induction entries as [|we rest IH]; intros result; simpl.
  - apply respects_ret, Appends_refl.
  - destruct (isFile we); [|apply IH].
    apply (respects_bind _ (Appends_trans _)); [apply respects_lift, Appends_refl|].
    intros name.
    apply (respects_bind _ (Appends_trans _)); [apply step_tryHook|]. intros _. apply IH.
Qed.

(** The hooks of one step: nothing but loads, output, and calls for that
    step. *)
Lemma step_handleProjectBuildHooks env ctx step :
  Respects (Appends (stepEvent step)) (handleProjectBuildHooks env ctx step).
Proof.
  unfold handleProjectBuildHooks.
  destruct (expandGlobSync env (cwd env) (buildLifecyleHandlerGlob ctx)) as [entries err].
  apply (respects_bind _ (Appends_trans _)); [apply step_runHooks|].
  intros result. apply respects_afterGlob, Appends_refl.
Qed.

Lemma runShellCommand_Normal_inv env ctx cmd st st' :
  runShellCommand env cmd (shellOptions ctx) st = (Normal tt, st') ->
  st' = logged st (shellRun ctx cmd).
Proof.
  unfold runShellCommand, shellRun, bind. rewrite emit_eq. cbn [dryRun shellOptions].
  destruct (isDryRun ctx).
  - by intros [= <-].
  - rewrite emit_eq. destruct (shellOutcome env cmd); [discriminate|].
    intros [= <-]. by rewrite logged_logged.
Qed.

(** X11.  The stages of [build] are started in order.  In every run of
    [build] that returns, the trace is: what the prepare hooks left
    (loads, output, calls of default functions for [prepare] and what
    those did before returning), then the call of [hugox], then what the
    finalize hooks left.  No default function is called for [finalize]
    before the command, none for [prepare] after it, and the command is
    run exactly once. *)
Theorem build_runs_stages_in_order
    (env : Env) (ctx : PublishCommandHandlerContext) (st st' : State) :
  build env ctx st = (Normal tt, st') ->
  exists pre post,
    trace st' =
      trace st ++ pre ++ shellReport env ctx "hugox" ++ shellRun ctx "hugox" ++ post /\
    Forall (stepEvent PREPARE) pre /\
    Forall (stepEvent FINALIZE) post.
Proof.
  intros H. unfold build in H.
  inv_bind H. inv_bind H. inv_bind H.
  rewrite reportShellCmd_eq in Ha0. injection Ha0 as <- <-.
  destruct a1. apply runShellCommand_Normal_inv in Ha1. subst st2.
  unfold finalizeBuild in H. inv_bind H. injection H as <-.
  apply (respects_at _ _ _ _ _ (step_handleProjectBuildHooks env ctx PREPARE)) in Ha
    as (pre & T1 & F1).
  apply (respects_at _ _ _ _ _ (step_handleProjectBuildHooks env ctx FINALIZE)) in Ha0
    as (post & T2 & F2).
  exists pre, post. split; [|done].
  rewrite T2. simpl. rewrite T1. by rewrite <- !app_assoc.
Qed.

Lemma build_runs_stages_in_order_witness :
  exists pre post,
    trace (snd (build slowEnv (newContext slowEnv Sample.data {[ "build" := JsBool true ]})
                  (Sample.start []))) =
      [] ++ pre ++
      shellReport slowEnv (newContext slowEnv Sample.data {[ "build" := JsBool true ]})
        "hugox" ++
      shellRun (newContext slowEnv Sample.data {[ "build" := JsBool true ]}) "hugox" ++
      post /\
    Forall (stepEvent PREPARE) pre /\
    Forall (stepEvent FINALIZE) post.
Proof.
  apply (build_runs_stages_in_order slowEnv
           (newContext slowEnv Sample.data {[ "build" := JsBool true ]})
           (Sample.start [])).
  reflexivity.
Defined.

(** ** Which hooks are called *)

Lemma hooksCalled_app a b : hooksCalled (a ++ b) = hooksCalled a ++ hooksCalled b.
Proof. apply omap_app. Qed.

Lemma hooksCalled_none evs : Forall notHookCall evs -> hooksCalled evs = [].
Proof.
  induction 1 as [|e evs He _ IH]; [done|].
  unfold hooksCalled in *. simpl. by destruct e.
Qed.

Lemma quiet_log args : Respects (Appends notHookCall) (console_log args).
Proof. by apply Appends_emit. Qed.

Lemma quiet_reportHookError env name e :
  Respects (Appends notHookCall) (reportHookError env name e).
Proof.
  apply (respects_bind _ (Appends_trans _)); [apply quiet_log|]. intros _. apply quiet_log.
Qed.

Lemma quiet_callHook f c : Respects (Appends notHookCall) (callHook f c).
Proof.
  apply (respects_callHook _ (Appends_refl _) (Appends_trans _) notHookCall).
  - apply Appends_emit.
  - done.
  - apply Appends_float.
Qed.

(** What follows the call of the default function, inside the [try]. *)
Lemma quiet_afterCall env name f c b args :
  Respects (Appends notHookCall)
           (try_catch (callHook f c ;;; when b (console_log args))
                      (reportHookError env name)).
Proof.
  apply (respects_try_catch _ (Appends_trans _)).
  - apply (respects_bind _ (Appends_trans _)); [apply quiet_callHook|]. intros _.
    apply respects_when; [apply Appends_refl|]. intros _. apply quiet_log.
  - intros e. apply quiet_reportHookError.
Qed.

(** One pass of the hook loop calls the default function once if this is
    not a dry run and the module loads and has one, and not at all
    otherwise. *)
Lemma tryHook_calls env ctx step we name st :
  exists evs,
    trace (snd (try_catch (loadAndRunHook env ctx step we name)
                          (reportHookError env name) st)) = trace st ++ evs /\
    hooksCalled evs =
      if isDryRun ctx then []
      else if callable env (path we) then [(path we, step)] else [].
Proof.
  unfold loadAndRunHook, callable. rewrite try_catch_emit.
  destruct (importModule env (toFileUrl env (path we))) as [m|e] eqn:Himp.
  - set (s0 := snd (emit (DynamicImport (toFileUrl env (path we))) st)).
    assert (trace s0 = trace st ++ [DynamicImport (toFileUrl env (path we))]) as T0 by done.
    change (try_catch (module <- liftCompletion (Normal m) ;;
                       useModule env ctx step we name module)
                      (reportHookError env name) s0)
      with (try_catch (useModule env ctx step we name m) (reportHookError env name) s0).
    unfold useModule.
    destruct (isDryRun ctx) eqn:Hdry; simpl.
    + (* dry run: the report only *)
      unfold try_catch, bind, when, console_log, ret. simpl.
      eexists. split; [rewrite <- app_assoc; reflexivity | reflexivity].
    + destruct (default m) as [|handler] eqn:Hdef.
      * (* no default function: reported, not called *)
        destruct (isVerbose ctx); unfold try_catch, bind, when, console_log, ret; simpl;
          (eexists; split; [rewrite <- ?app_assoc; reflexivity | reflexivity]).
      * (* the call *)
        set (logs := if isVerbose ctx
                     then [ConsoleLog [LStr (stepName step); LStr (paint env Yellow name);
                                       LStr (paint env Green "imported")]]
                     else []).
        set (rest := callHook (path we) (handler step) ;;;
                     when (isVerbose ctx)
                          (console_log [LStr (stepName step); LStr (paint env Yellow name);
                                        LStr (paint env Green "executed")])).
        set (s2 := if isVerbose ctx
                   then logged (logged s0 logs) [HookInvoked (path we) step]
                   else logged s0 [HookInvoked (path we) step]).
        assert (try_catch
                  (when (isVerbose ctx)
                        (console_log [LStr (stepName step); LStr (paint env Yellow name);
                                      LStr (paint env Green "imported")]) ;;;
                   emit (HookInvoked (path we) step) ;;; rest)
                  (reportHookError env name) s0 =
                try_catch rest (reportHookError env name) s2) as ->.
        { subst s2 logs. destruct (isVerbose ctx); reflexivity. }
        assert (trace s2 =
                trace st ++ [DynamicImport (toFileUrl env (path we))] ++ logs ++
                [HookInvoked (path we) step]) as T2.
        { subst s2 logs. destruct (isVerbose ctx); simpl; by rewrite <- ?app_assoc. }
        destruct (quiet_afterCall env name (path we) (handler step) (isVerbose ctx)
                    [LStr (stepName step); LStr (paint env Yellow name);
                     LStr (paint env Green "executed")] s2)
          as (evs & T & Q).
        fold rest in T. rewrite T, T2.
        exists ([DynamicImport (toFileUrl env (path we))] ++ logs ++
                [HookInvoked (path we) step] ++ evs).
        split; [by rewrite <- !app_assoc|].
        rewrite !hooksCalled_app, (hooksCalled_none evs Q).
        subst logs. by destruct (isVerbose ctx).
  - (* the load failed: the error is printed *)
    unfold try_catch, bind, liftCompletion, reportHookError, console_log. simpl.
    eexists. split; [rewrite <- !app_assoc; reflexivity|].
    by destruct (isDryRun ctx).
Qed.

Lemma runHooks_called env ctx step entries result st names st' :
  runHooks env ctx step entries result st = (Normal names, st') ->
  exists evs,
    trace st' = trace st ++ evs /\
    hooksCalled evs =
      if isDryRun ctx then []
      else map (fun p => (p, step))
               (List.filter (callable env) (map path (List.filter isFile entries))).
Proof.
  revert result st. induction entries as [|we rest IH]; intros result st H; simpl in H.
  - injection H as _ <-. exists []. rewrite app_nil_r. by destruct (isDryRun ctx).
  - destruct (isFile we) eqn:Hf; simpl; rewrite ?Hf; [|by apply IH in H].
    inv_bind H. apply lift_Normal_inv in Ha as [Hrel ->]. inv_bind H.
    destruct (tryHook_calls env ctx step we a st) as (e1 & T1 & C1).
    rewrite Ha in T1. simpl in T1.
    apply IH in H as (e2 & T2 & C2).
    exists (e1 ++ e2). split; [by rewrite T2, T1, app_assoc|].
    rewrite hooksCalled_app, C1, C2. simpl.
    destruct (isDryRun ctx); [done|]. by destruct (callable env (path we)).
Qed.

(** X12.  Every hook is called once per step, in discovery order.  In a
    run of [handleProjectBuildHooks] that returns, the default functions
    called are exactly those of the hook files whose module loads and
    exports a function as default, each once with the step of the run, in
    the order the files were found.  A file whose load fails or that has
    no default function is not called (and does not keep the others from
    being called); in a dry run none is. *)
Theorem every_callable_hook_is_called_once
    (env : Env) (ctx : PublishCommandHandlerContext) (step : BuildLifecycleStep)
    (st : State) (names : list string) (st' : State) :
  handleProjectBuildHooks env ctx step st = (Normal names, st') ->
  exists evs,
    trace st' = trace st ++ evs /\
    hooksCalled evs =
      if isDryRun ctx then []
      else map (fun p => (p, step)) (List.filter (callable env) (hookFiles env ctx)).
Proof.
  unfold handleProjectBuildHooks, hookFiles.
  destruct (expandGlobSync env (cwd env) (buildLifecyleHandlerGlob ctx)) as [entries err].
  intros H. inv_bind H. destruct err; [discriminate|]. injection H as _ <-.
  by apply runHooks_called in Ha.
Qed.

Lemma every_callable_hook_is_called_once_witness :
  exists evs,
    trace (snd (handleProjectBuildHooks (Sample.world "/site" ∅ mixedModules)
                  (newContext siteEnv Sample.data {[ "build" := JsBool true ]})
                  FINALIZE (Sample.start []))) = [] ++ evs /\
    hooksCalled evs = [("/site/docs/pubctl-hook-build.ts", FINALIZE)].
Proof.
  destruct (every_callable_hook_is_called_once (Sample.world "/site" ∅ mixedModules)
              (newContext siteEnv Sample.data {[ "build" := JsBool true ]})
              FINALIZE (Sample.start [])
              ["theme/pubctl-hook-build.ts"; "docs/pubctl-hook-build.ts"]
              (snd (handleProjectBuildHooks (Sample.world "/site" ∅ mixedModules)
                      (newContext siteEnv Sample.data {[ "build" := JsBool true ]})
                      FINALIZE (Sample.start []))))
    as (evs & T & C).
  - vm_compute. reflexivity.
  - exists evs. split; [exact T|]. rewrite C. reflexivity.
Defined.

(** ** What the per-hook boundary isolates, and what it does not *)

Lemma runHooks_total env ctx step entries names result st :
  relativeNames env ctx (map path (List.filter isFile entries)) names ->
  fst (runHooks env ctx step entries result st) = Normal (result ++ names).
Proof.
  revert names result st.
  induction entries as [|we rest IH]; intros names result st Hnames; simpl in *.
  - inversion Hnames. by rewrite app_nil_r.
  - destruct (isFile we); [|by apply IH].
    simpl in Hnames. inversion Hnames as [|p n ps ns Hrel Hrest]; subst.
    unfold bind at 1, liftCompletion. rewrite Hrel.
    unfold bind at 1.
    pose proof (tryHook_Normal env ctx step we n st) as Hn.
    destruct (try_catch _ _ st) as [c s1]. simpl in Hn. subst c.
    rewrite (IH ns) by done. by rewrite <- app_assoc.
Qed.

(** The loop gets through all the files yielded, whatever their modules
    do. *)
Lemma runHooks_through env ctx step entries names st :
  relativeNames env ctx (map path (List.filter isFile entries)) names ->
  exists st' evs,
    runHooks env ctx step entries [] st = (Normal names, st') /\
    trace st' = trace st ++ evs /\
    importsOf evs = map (toFileUrl env) (map path (List.filter isFile entries)).
Proof.
  intros Hnames.
  pose proof (runHooks_total env ctx step entries names [] st Hnames) as Hfst.
  destruct (runHooks env ctx step entries [] st) as [c st'] eqn:E.
  simpl in Hfst. subst c.
  apply runHooks_inv in E as Hinv. destruct Hinv as (new & evs & _ & _ & T & Im).
  by exists st', evs.
Qed.

(** X13.  A failing hook does not stop the batch.  When the expansion
    completes and the hook names can be computed, [handleProjectBuildHooks]
    returns normally with the names of all hook files found, in order,
    and the load of every one of them has been attempted, whatever the
    modules do: a module that fails to load, one without a default
    function and a default function that throws inside the call are all
    absorbed at the per-hook [try]/[catch]. *)
Theorem hook_failures_do_not_stop_the_batch
    (env : Env) (ctx : PublishCommandHandlerContext) (step : BuildLifecycleStep)
    (entries : list WalkEntry) (names : list string) (st : State) :
  expandGlobSync env (cwd env) (buildLifecyleHandlerGlob ctx) = (entries, None) ->
  relativeNames env ctx (map path (List.filter isFile entries)) names ->
  exists st' evs,
    handleProjectBuildHooks env ctx step st = (Normal names, st') /\
    trace st' = trace st ++ evs /\
    importsOf evs = map (toFileUrl env) (map path (List.filter isFile entries)).
Proof.
  intros Hglob Hnames. unfold handleProjectBuildHooks. rewrite Hglob.
  destruct (runHooks_through env ctx step entries names st Hnames)
    as (st' & evs & E & T & Im).
  exists st', evs. split; [|done]. unfold bind. by rewrite E.
Qed.

Lemma hook_failures_do_not_stop_the_batch_witness :
  exists st' evs,
    handleProjectBuildHooks (Sample.world "/site" ∅ throwingModules)
      (newContext siteEnv Sample.data {[ "build" := JsBool true ]})
      PREPARE (Sample.start []) =
      (Normal ["theme/pubctl-hook-build.ts"; "docs/pubctl-hook-build.ts"], st') /\
    trace st' = trace (Sample.start []) ++ evs /\
    importsOf evs =
      map Sample.fileUrl (map path (List.filter isFile Sample.tree)).
Proof.
  apply (hook_failures_do_not_stop_the_batch (Sample.world "/site" ∅ throwingModules)
           (newContext siteEnv Sample.data {[ "build" := JsBool true ]})
           PREPARE Sample.tree
           ["theme/pubctl-hook-build.ts"; "docs/pubctl-hook-build.ts"]
           (Sample.start [])).
  - vm_compute. reflexivity.
  - repeat constructor.
Defined.

(** X14.  An error of the hook location is not caught by
    [handleProjectBuildHooks].  The expansion is consumed lazily: the hook
    files it yielded before failing are processed as usual (their loads
    are attempted), and then its error is thrown to the caller; the list
    of names is lost. *)
Theorem locator_error_is_thrown_after_the_yielded_hooks
    (env : Env) (ctx : PublishCommandHandlerContext) (step : BuildLifecycleStep)
    (entries : list WalkEntry) (names : list string) (e : Thrown) (st : State) :
  expandGlobSync env (cwd env) (buildLifecyleHandlerGlob ctx) = (entries, Some e) ->
  relativeNames env ctx (map path (List.filter isFile entries)) names ->
  exists st' evs,
    handleProjectBuildHooks env ctx step st = (Throw e, st') /\
    trace st' = trace st ++ evs /\
    importsOf evs = map (toFileUrl env) (map path (List.filter isFile entries)).
Proof.
  intros Hglob Hnames. unfold handleProjectBuildHooks. rewrite Hglob.
  destruct (runHooks_through env ctx step entries names st Hnames)
    as (st' & evs & E & T & Im).
  exists st', evs. split; [|done]. unfold bind. by rewrite E.
Qed.

Lemma locator_error_is_thrown_after_the_yielded_hooks_witness :
  exists st' evs,
    handleProjectBuildHooks brokenGlobEnv
      (newContext brokenGlobEnv Sample.data {[ "build" := JsBool true ]})
      PREPARE (Sample.start []) = (Throw (ErrorObj "PermissionDenied"), st') /\
    trace st' = trace (Sample.start []) ++ evs /\
    importsOf evs = ["file:///site/theme/pubctl-hook-build.ts"].
Proof.
  apply (locator_error_is_thrown_after_the_yielded_hooks brokenGlobEnv
           (newContext brokenGlobEnv Sample.data {[ "build" := JsBool true ]})
           PREPARE
           [{| path := "/site/theme/pubctl-hook-build.ts"; isFile := true |}]
           ["theme/pubctl-hook-build.ts"]
           (ErrorObj "PermissionDenied") (Sample.start [])).
  - reflexivity.
  - repeat constructor.
Defined.

Lemma runHooks_relative_throws env ctx step skipped we later e result st :
  Forall (fun d => isFile d = false) skipped ->
  isFile we = true ->
  relative env (projectHome ctx) (path we) = Throw e ->
  runHooks env ctx step (skipped ++ we :: later) result st = (Throw e, st).
Proof.
  intros Hskip Hfile Hrel. induction Hskip as [|d ds Hd _ IH]; simpl.
  - rewrite Hfile. unfold bind, liftCompletion. by rewrite Hrel.
  - by rewrite Hd.
Qed.

(** X15.  The name of a hook is computed outside the per-hook [try].
    If [path.relative] throws for a hook file (the project home is not a
    string, as after the bare [--project] flag of the default grammar),
    the error is not isolated: [handleProjectBuildHooks] throws it at the
    first hook file, before loading any module, and no hook is processed. *)
Theorem relative_name_failure_aborts_the_batch
    (env : Env) (ctx : PublishCommandHandlerContext) (step : BuildLifecycleStep)
    (skipped : list WalkEntry) (we : WalkEntry) (later : list WalkEntry)
    (err : option Thrown) (e : Thrown) (st : State) :
  expandGlobSync env (cwd env) (buildLifecyleHandlerGlob ctx) =
    (skipped ++ we :: later, err) ->
  Forall (fun d => isFile d = false) skipped ->
  isFile we = true ->
  relative env (projectHome ctx) (path we) = Throw e ->
  handleProjectBuildHooks env ctx step st = (Throw e, st).
Proof.
  intros Hglob Hskip Hfile Hrel. unfold handleProjectBuildHooks. rewrite Hglob.
  unfold bind. by rewrite (runHooks_relative_throws env ctx step skipped we later e).
Qed.

Lemma relative_name_failure_aborts_the_batch_witness :
  handleProjectBuildHooks slowEnv
    (newContext slowEnv Sample.data {[ "build" := JsBool true; "--project" := JsBool true ]})
    PREPARE (Sample.start []) =
  (Throw (ErrorObj "TypeError: Path must be a string"), Sample.start []).
Proof.
  apply (relative_name_failure_aborts_the_batch slowEnv
           (newContext slowEnv Sample.data
              {[ "build" := JsBool true; "--project" := JsBool true ]})
           PREPARE []
           {| path := "/site/theme/pubctl-hook-build.ts"; isFile := true |}
           [ {| path := "/site/odd/pubctl-hook-build.ts"; isFile := false |};
             {| path := "/site/docs/pubctl-hook-build.ts"; isFile := true |} ]
           None (ErrorObj "TypeError: Path must be a string") (Sample.start [])).
  - vm_compute. reflexivity.
  - constructor.
  - reflexivity.
  - vm_compute. reflexivity.
Defined.

(** ** What a real [clean] removes *)

Lemma append_cons x (a b : string) : String x a +:+ b = String x (a +:+ b).
Proof. reflexivity. Qed.

Lemma append_assoc_s (a b c : string) : (a +:+ b) +:+ c = a +:+ (b +:+ c).
Proof.
  induction a as [|x a IH]; [done|]. by rewrite !append_cons, IH.
Qed.

Lemma prefix_app_cancel (a b c : string) :
  String.prefix (a +:+ b) (a +:+ c) = String.prefix b c.
Proof.
  induction a as [|x a IH]; [done|]. rewrite !append_cons. simpl.
  by destruct (Ascii.ascii_dec x x).
Qed.

Lemma eqb_app_cancel (a b c : string) :
  String.eqb (a +:+ b) (a +:+ c) = String.eqb b c.
Proof.
  induction a as [|x a IH]; [done|]. rewrite !append_cons. simpl.
  by rewrite Ascii.eqb_refl.
Qed.

(** Whether one target lies in the tree of another does not depend on the
    working directory. *)
Lemma inTree_resolvePath env g f :
  inTree (resolvePath env g) (resolvePath env f) = inTree ("/" +:+ g) ("/" +:+ f).
Proof.
  unfold inTree, resolvePath.
  by rewrite eqb_app_cancel, append_assoc_s, prefix_app_cancel.
Qed.

Lemma cleanTargets_unnested env : unnested env cleanTargets.
Proof.
  unfold cleanTargets. simpl. repeat split.
  - intros f [->|[->|[]%elem_of_nil]%elem_of_cons]%elem_of_cons;
      by rewrite inTree_resolvePath.
  - intros f [->|[]%elem_of_nil]%elem_of_cons. by rewrite inTree_resolvePath.
  - intros f []%elem_of_nil.
Qed.

Lemma pathExists_removeTree_keep p q fs :
  inTree q p = false -> pathExists p (removeTree q fs) = pathExists p fs.
Proof.
  intros Hout. unfold pathExists, removeTree.
  induction fs as [|x fs IH]; simpl; [done|].
  destruct (inTree q x) eqn:Hin; simpl.
  - rewrite IH. destruct (String.eqb p x) eqn:E; [|done].
    apply String.eqb_eq in E. subst x. congruence.
  - by rewrite IH.
Qed.

Lemma pathExists_removeTree_gone p q fs :
  inTree p q = true -> pathExists q (removeTree p fs) = false.
Proof.
  intros Hin. unfold pathExists, removeTree. apply not_true_is_false. intros H.
  apply existsb_exists in H as (x & Hx & Heq).
  apply filter_In in Hx as [_ Hx]. apply String.eqb_eq in Heq. subst x.
  by rewrite Hin in Hx.
Qed.

(** A real pass over one target that exists removes its whole tree and
    nothing outside it. *)
Lemma cleanTarget_real env ctx g st st' :
  isDryRun ctx = false ->
  cleanTarget env ctx g st = (Normal tt, st') ->
  (pathExists (resolvePath env g) (files st) = true ->
   forall q, inTree (resolvePath env g) q = true -> pathExists q (files st') = false) /\
  (forall p, inTree (resolvePath env g) p = false ->
             pathExists p (files st') = pathExists p (files st)).
Proof.
  intros Hdry. unfold cleanTarget, existsSync, removeSync, unlinkTree, bind, emit.
  rewrite Hdry. simpl.
  destruct (pathExists (resolvePath env g) (files st)) eqn:Hex; simpl.
  - rewrite Hex. unfold when, console_log, emit, ret.
    destruct (isVerbose ctx); intros [= <-]; simpl; split;
      try (intros _ q Hq; by apply pathExists_removeTree_gone);
      intros p Hp; by apply pathExists_removeTree_keep.
  - intros [= <-]. split; [done | done].
Qed.

Lemma forEach_cleanTarget_real env ctx l st st' :
  isDryRun ctx = false ->
  unnested env l ->
  forEach l (cleanTarget env ctx) st = (Normal tt, st') ->
  forall f, f ∈ l -> pathExists (resolvePath env f) (files st) = true ->
  forall q, inTree (resolvePath env f) q = true -> pathExists q (files st') = false.
Proof.
  intros Hdry. revert st.
  induction l as [|g rest IH]; intros st Hun H f Hf Hex q Hq; simpl in H.
  - by apply elem_of_nil in Hf.
  - destruct Hun as [Hhead Hrest]. inv_bind H. destruct a.
    destruct (cleanTarget_real env ctx g st st1 Hdry Ha) as [Hgone Hkeep].
    apply elem_of_cons in Hf as [->|Hf].
    + apply not_true_is_false. intros Hstill.
      apply (respects_at _ _ _ _ _ (shrinks_forEach_cleanTarget env ctx rest) H) in Hstill.
      by rewrite (Hgone Hex q Hq) in Hstill.
    + apply (IH st1 Hrest H f Hf); [|done].
      rewrite Hkeep; [done|]. by apply Hhead.
Qed.

(** X16.  A real [clean] removes the whole tree of every target that is
    there, and nothing else.  After a [clean] that is not a dry run and
    returns, for each of go.sum, public and resources that existed under
    the working directory, the path and everything below it are gone; and
    a path outside those three trees that existed before still exists. *)
Theorem clean_removes_whole_trees
    (env : Env) (ctx : PublishCommandHandlerContext) (st st' : State) :
  isDryRun ctx = false ->
  clean env ctx st = (Normal tt, st') ->
  (forall f, f ∈ cleanTargets ->
     pathExists (resolvePath env f) (files st) = true ->
     forall q, inTree (resolvePath env f) q = true -> pathExists q (files st') = false) /\
  (forall q, q ∈ files st ->
     (forall f, f ∈ cleanTargets -> inTree (resolvePath env f) q = false) ->
     q ∈ files st').
Proof.
  intros Hdry H. split.
  - rewrite clean_prelude in H. inv_bind H. destruct a.
    destruct (cleanPrelude_quiet env ctx) as [Hfiles _].
    apply (respects_at _ _ _ _ _ Hfiles) in Ha. unfold SameFiles in Ha.
    intros f Hf Hex q Hq.
    apply (forEach_cleanTarget_real env ctx cleanTargets st1 st' Hdry
             (cleanTargets_unnested env) H f Hf); [by rewrite Ha | done].
  - intros q Hq Hout.
    destruct (respects_at _ _ _ _ _ (clean_deletes_at_cwd env ctx) H q Hq)
      as [Hstay | (f & Hf & Hin)]; [done|].
    unfold resolvePath in Hout. by rewrite (Hout f Hf) in Hin.
Qed.

Lemma clean_removes_whole_trees_witness :
  pathExists "/site/public/css/site.css"
    (files (snd (clean siteEnv realCtx
                   (Sample.start ["/site/public"; "/site/public/css/site.css";
                                  "/site/publications/a.md"])))) = false.
Proof.
  apply (proj1 (clean_removes_whole_trees siteEnv realCtx
                  (Sample.start ["/site/public"; "/site/public/css/site.css";
                                 "/site/publications/a.md"])
                  (snd (clean siteEnv realCtx
                          (Sample.start ["/site/public"; "/site/public/css/site.css";
                                         "/site/publications/a.md"])))
                  eq_refl eq_refl) "public").
  - unfold cleanTargets. right. left.
  - reflexivity.
  - reflexivity.
Defined.

(** ** The constructor, the custom handlers, the hook names *)

(** X17.  The constructor never stores an empty pattern or project home,
    and this is what it stores instead.  A truthy [--build-hooks] is kept
    as it is; a missing, false or empty one gives the default pattern
    "**/*/pubctl-hook-build.ts".  A truthy [--project] is kept as it is; a
    missing, false or empty one gives the project home of the spec
    options when that is a non-empty string, and the working directory
    when it is missing or empty.  So the stored pattern is always truthy,
    and so is the stored project home as long as the working directory is
    not the empty string. *)
Theorem newContext_never_stores_an_empty_path
    (env : Env) (chs : SpecData) (opts : gmap string JsVal) :
  cwd env <> "" ->
  truthy (buildLifecyleHandlerGlob (newContext env chs opts)) = true /\
  truthy (projectHome (newContext env chs opts)) = true /\
  (forall v, opts !! "--build-hooks" = Some v -> truthy v = true ->
     buildLifecyleHandlerGlob (newContext env chs opts) = v) /\
  (truthyProp opts "--build-hooks" = false ->
     buildLifecyleHandlerGlob (newContext env chs opts) =
     JsStr "**/*/pubctl-hook-build.ts") /\
  (forall v, opts !! "--project" = Some v -> truthy v = true ->
     projectHome (newContext env chs opts) = v) /\
  (truthyProp opts "--project" = false ->
     forall s, chsProjectHome chs = Some s -> s <> "" ->
     projectHome (newContext env chs opts) = JsStr s) /\
  (truthyProp opts "--project" = false ->
     chsProjectHome chs = None \/ chsProjectHome chs = Some "" ->
     projectHome (newContext env chs opts) = JsStr (cwd env)).
Proof.
  intros Hcwd.
  assert (truthy (JsStr (projectHomeOrCwd env chs)) = true) as Hhome.
  { unfold projectHomeOrCwd. simpl. apply negb_true_iff, String.eqb_neq.
    destruct (chsProjectHome chs) as [s|]; [|done].
    destruct (String.eqb s "") eqn:E; [done | by apply String.eqb_neq]. }
  unfold newContext, truthyProp. cbn [buildLifecyleHandlerGlob projectHome].
  repeat split.
  - destruct (opts !! "--build-hooks") as [v|]; [|done].
    by destruct (truthy v) eqn:E.
  - destruct (opts !! "--project") as [v|]; [|done].
    by destruct (truthy v) eqn:E.
  - intros v Hv Ht. by rewrite Hv, Ht.
  - intros Hf. destruct (opts !! "--build-hooks") as [v|]; [|done].
    by rewrite Hf.
  - intros v Hv Ht. by rewrite Hv, Ht.
  - intros Hf s Hs Hne.
    assert (projectHomeOrCwd env chs = s) as ->.
    { unfold projectHomeOrCwd. rewrite Hs.
      by apply String.eqb_neq in Hne as ->. }
    destruct (opts !! "--project") as [v|]; [|done]. by rewrite Hf.
  - intros Hf Hs.
    assert (projectHomeOrCwd env chs = cwd env) as ->.
    { unfold projectHomeOrCwd. by destruct Hs as [-> | ->]. }
    destruct (opts !! "--project") as [v|]; [|done]. by rewrite Hf.
Qed.

(** An empty [--build-hooks] and a false [--project], in [/site]: the
    default pattern and the project home of the spec options are stored. *)
Lemma newContext_never_stores_an_empty_path_witness :
  (truthy (buildLifecyleHandlerGlob
             (newContext siteEnv siteData
                {[ "--build-hooks" := JsStr ""; "--project" := JsBool false ]})) = true /\
   truthy (projectHome
             (newContext siteEnv siteData
                {[ "--build-hooks" := JsStr ""; "--project" := JsBool false ]})) = true) /\
  buildLifecyleHandlerGlob
    (newContext siteEnv siteData
       {[ "--build-hooks" := JsStr ""; "--project" := JsBool false ]}) =
  JsStr "**/*/pubctl-hook-build.ts" /\
  projectHome
    (newContext siteEnv siteData
       {[ "--build-hooks" := JsStr ""; "--project" := JsBool false ]}) =
  JsStr "/site".
Proof.
  destruct (newContext_never_stores_an_empty_path siteEnv siteData
              {[ "--build-hooks" := JsStr ""; "--project" := JsBool false ]})
    as (Hg & Hh & _ & Hdefault & _ & Hspec & _); [discriminate|].
  split; [by split|]. split.
  - apply Hdefault. reflexivity.
  - apply (Hspec eq_refl "/site"); [reflexivity | discriminate].
Defined.

(** Handlers that all decline are passed over, and the loop goes on with
    the rest. *)
Lemma dispatch_app_declined hs1 hs2 ctx st s1 :
  dispatch hs1 ctx false st = (Normal false, s1) ->
  dispatch (hs1 ++ hs2) ctx false st = dispatch hs2 ctx false s1.
Proof.
  revert st. induction hs1 as [|[id h] rest IH]; intros st H.
  - simpl in H. by injection H as ->.
  - change (dispatch ((id, h) :: rest) ctx false st)
      with ((handled' <- h ctx ;;
             if handled' then ret true else dispatch rest ctx handled')
              (logged st [HandlerInvoked id])) in H.
    change (dispatch (((id, h) :: rest) ++ hs2) ctx false st)
      with ((handled' <- h ctx ;;
             if handled' then ret true else dispatch (rest ++ hs2) ctx handled')
              (logged st [HandlerInvoked id])).
    unfold bind in *.
    destruct (h ctx (logged st [HandlerInvoked id])) as [[[|]|e] sA]; try discriminate.
    by apply IH.
Qed.

(** X18.  Within the custom handlers, the first one to claim the request
    ends the loop.  If the handlers before it all decline and handler
    number k returns [true], the loop over the custom handlers ends right
    there with [handled = true]: the state is the one that handler left,
    so no later custom handler has been called. *)
Theorem custom_loop_stops_at_first_claim
    (before after : list PublishCommandHandler) (h : PublishCommandHandler)
    (ctx : PublishCommandHandlerContext) (st s1 s2 : State) :
  dispatch (numbered before) ctx false st = (Normal false, s1) ->
  h ctx (logged s1 [HandlerInvoked (Custom (length before))]) = (Normal true, s2) ->
  dispatch (numbered (before ++ h :: after)) ctx false st = (Normal true, s2).
Proof.
  intros Hbefore Hclaim. unfold numbered in *. rewrite imap_app.
  rewrite (dispatch_app_declined _ _ ctx st s1) by done.
  simpl. rewrite Nat.add_0_r. by apply (dispatch_claimed _ _ _ _ false).
Qed.

Lemma custom_loop_stops_at_first_claim_witness :
  dispatch (numbered ([(fun _ => ret false) : PublishCommandHandler] ++
                      claimAll :: [throwUndefined]))
    realCtx false (Sample.start []) =
  (Normal true,
   logged (logged (Sample.start []) [HandlerInvoked (Custom 0)])
     [HandlerInvoked (Custom 1)]).
Proof.
  apply (custom_loop_stops_at_first_claim
           [(fun _ => ret false) : PublishCommandHandler] [throwUndefined] claimAll
           realCtx (Sample.start [])
           (logged (Sample.start []) [HandlerInvoked (Custom 0)])); reflexivity.
Defined.

Lemma relativeNames_unique env ctx ps names1 names2 :
  relativeNames env ctx ps names1 -> relativeNames env ctx ps names2 -> names1 = names2.
Proof.
  intros H1. revert names2. induction H1 as [|p n ps ns Hp _ IH]; intros names2 H2.
  - by inversion H2.
  - inversion H2 as [|p' n' ps' ns' Hp' Hrest]; subst.
    rewrite Hp in Hp'. injection Hp' as <-. f_equal. by apply IH.
Qed.

(** X19.  [update] and the hook executor agree on the hooks.  Run on
    the same context, [getPrepareBuildSubmoduleRelNames] (which feeds
    [update]) and [handleProjectBuildHooks] return the same names in the
    same order whenever both return; the former changes nothing: it loads
    no module and prints nothing. *)
Theorem update_and_hooks_agree_on_names
    (env : Env) (ctx : PublishCommandHandlerContext) (step : BuildLifecycleStep)
    (st s1 s2 : State) (names1 names2 : list string) :
  getPrepareBuildSubmoduleRelNames env ctx st = (Normal names1, s1) ->
  handleProjectBuildHooks env ctx step st = (Normal names2, s2) ->
  names1 = names2 /\ s1 = st.
Proof.
  unfold getPrepareBuildSubmoduleRelNames, handleProjectBuildHooks.
  destruct (expandGlobSync env (cwd env) (buildLifecyleHandlerGlob ctx)) as [entries err].
  intros H1 H2. inv_bind H1. inv_bind H2.
  destruct err; [discriminate|]. injection H1 as <- <-. injection H2 as <- <-.
  apply collectRelNames_inv in H1a as (-> & new1 & -> & R1).
  apply runHooks_inv in H2a as (new2 & evs & -> & R2 & _).
  split; [|done]. simpl.
  by apply (relativeNames_unique env ctx (map path (List.filter isFile entries))).
Qed.

Lemma update_and_hooks_agree_on_names_witness :
  ["theme/pubctl-hook-build.ts"; "docs/pubctl-hook-build.ts"] =
  ["theme/pubctl-hook-build.ts"; "docs/pubctl-hook-build.ts"] /\
  Sample.start [] = Sample.start [].
Proof.
  apply (update_and_hooks_agree_on_names slowEnv
           (newContext slowEnv Sample.data {[ "build" := JsBool true ]})
           PREPARE (Sample.start []) (Sample.start [])
           (snd (handleProjectBuildHooks slowEnv
                   (newContext slowEnv Sample.data {[ "build" := JsBool true ]})
                   PREPARE (Sample.start [])))).
  - vm_compute. reflexivity.
  - vm_compute. reflexivity.
Defined.

(** X20.  A command that fails ends at the dispatcher, not in a crash.
    For [pubctl clean] when the shell runner throws an [Error] on
    [hugox mod clean --all]: the two handlers before [cleanHandler]
    decline, the command is attempted once, nothing is deleted, the two
    later handlers are not called, and [CLI] prints the error's message on
    the error console and returns normally. *)
Theorem CLI_reports_a_failed_clean
    (env : Env) (chs : CommandHandlerSpecOptions) (doc : string)
    (opts : gmap string JsVal) (ctx : PublishCommandHandlerContext)
    (message : string) (st s1 : State) :
  grammarOf chs = Normal doc ->
  docopt_default env doc = Normal opts ->
  contextOf env chs opts = Normal ctx ->
  customLoop chs ctx st = (Normal false, s1) ->
  truthyProp (cliOptions ctx) "prepare-build" = false ->
  truthyProp (cliOptions ctx) "build" = false ->
  truthyProp (cliOptions ctx) "clean" = true ->
  isDryRun ctx = false ->
  shellOutcome env "hugox mod clean --all" = Some (ErrorObj message) ->
  CLI env chs st =
  (Normal tt,
   logged s1 ([HandlerInvoked (Common PrepareBuildHandler);
               HandlerInvoked (Common BuildHandler);
               HandlerInvoked (Common CleanHandler)] ++
              shellReport env ctx "hugox mod clean --all" ++
              shellRun ctx "hugox mod clean --all" ++
              [ConsoleError [LStr message]])).
Proof.
  intros Hdoc Hopts Hctx Hcustom Hprep Hbuild Hclean Hdry Hfail.
  rewrite (CLI_after_setup env chs doc opts ctx) by done.
  unfold try_catch. rewrite (resolveHandlers_after_custom env chs opts ctx st s1) by done.
  unfold bind at 1. unfold commonHandlers.
  do 2 skip_common env.
  match goal with |- context [dispatch ((Common CleanHandler, ?h) :: ?rest) ctx false ?s] =>
    change (dispatch ((Common CleanHandler, h) :: rest) ctx false s)
      with ((handled' <- h ctx ;;
             if handled' then ret true else dispatch rest ctx handled')
              (logged s [HandlerInvoked (Common CleanHandler)]))
  end.
  unfold cleanHandler. rewrite Hclean. unfold bind at 1. unfold bind at 1.
  rewrite (clean_fails_with_the_command env ctx (ErrorObj message))
    by done.
  simpl. unfold console_error. rewrite emit_eq, !logged_logged.
  by rewrite <- !app_assoc.
Qed.

Lemma CLI_reports_a_failed_clean_witness :
  CLI brokenCleanEnv unknownSpec (Sample.start ["/site/public"]) =
  (Normal tt,
   logged (Sample.start ["/site/public"])
     [ HandlerInvoked (Common PrepareBuildHandler);
       HandlerInvoked (Common BuildHandler);
       HandlerInvoked (Common CleanHandler);
       ShellCommand "hugox mod clean --all" {| output := QuietOutput; dryRun := false |};
       CommandExecuted "hugox mod clean --all";
       ConsoleError [LStr "exit status 1"] ]).
Proof.
  rewrite (CLI_reports_a_failed_clean brokenCleanEnv unknownSpec
             (defaultDocoptSpec Sample.data) {[ "clean" := JsBool true ]}
             (newContext brokenCleanEnv Sample.data {[ "clean" := JsBool true ]})
             "exit status 1" (Sample.start ["/site/public"])
             (Sample.start ["/site/public"])); reflexivity.
Defined.

(** ** C10: the paths [clean] works on *)

Lemma presentOf_same env st st' l :
  (forall f, f ∈ l ->
     pathExists (cwd env +:+ "/" +:+ f) (files st') =
     pathExists (cwd env +:+ "/" +:+ f) (files st)) ->
  presentOf env st' l = presentOf env st l.
Proof.
  intros H. unfold presentOf. apply filter_ext_in.
  intros f Hf. apply H. by apply list_elem_of_In.
Qed.

(** The targets in a dry run: each one that is there under the working
    directory is reported, in order; nothing else is printed. *)
Lemma forEach_cleanTarget_dry_exact env ctx l st :
  isDryRun ctx = true ->
  forEach l (cleanTarget env ctx) st =
  (Normal tt, logged st (map (deletionReport env) (presentOf env st l))).
Proof.
  intros Hdry. revert st. induction l as [|f rest IH]; intros st; simpl.
  - unfold ret. by rewrite logged_nil.
  - unfold bind. rewrite dry_cleanTarget by done. rewrite IH.
    unfold resolvePath, presentOf. simpl.
    destruct (pathExists (cwd env +:+ "/" +:+ f) (files st)); simpl.
    + unfold logged. simpl. by rewrite <- app_assoc.
    + unfold logged. simpl. by rewrite app_nil_r.
Qed.

(** One target in a real run. *)
Lemma cleanTarget_real_exact env ctx f st :
  isDryRun ctx = false ->
  cleanTarget env ctx f st =
  (Normal tt,
   if pathExists (cwd env +:+ "/" +:+ f) (files st)
   then {| files := removeTree (cwd env +:+ "/" +:+ f) (files st);
           trace := trace st ++ removalOf env ctx f;
           floating := floating st |}
   else st).
Proof.
  intros Hdry.
  unfold cleanTarget, existsSync, removeSync, unlinkTree, resolvePath, removalOf, bind, emit.
  rewrite Hdry. simpl.
  destruct (pathExists (cwd env +:+ "/" +:+ f) (files st)) eqn:Hex; simpl; [|done].
  rewrite Hex. unfold when, console_log, emit, ret.
  destruct (isVerbose ctx); simpl; by rewrite <- ?app_assoc.
Qed.

(** The targets in a real run: the tree of each one that is there under
    the working directory is removed, in order, and nothing else. *)
Lemma forEach_cleanTarget_real_exact env ctx l st :
  isDryRun ctx = false ->
  unnested env l ->
  forEach l (cleanTarget env ctx) st =
  (Normal tt,
   {| files := removeTrees (map (fun f => cwd env +:+ "/" +:+ f) (presentOf env st l))
                           (files st);
      trace := trace st ++ concat (map (removalOf env ctx) (presentOf env st l));
      floating := floating st |}).
Proof.
  intros Hdry. revert st. induction l as [|g rest IH]; intros st Hun; simpl.
  - destruct st. unfold ret. simpl. by rewrite app_nil_r.
  - destruct Hun as [Hhead Hrest].
    unfold bind. rewrite cleanTarget_real_exact by done.
    unfold presentOf at 1 2. simpl.
    destruct (pathExists (cwd env +:+ "/" +:+ g) (files st)) eqn:Hex.
    + rewrite IH by done.
      rewrite (presentOf_same env st _ rest).
      * simpl. by rewrite <- app_assoc.
      * intros f Hf. simpl. apply pathExists_removeTree_keep. by apply Hhead.
    + by rewrite IH.
Qed.

(** C10.  [clean] resolves "go.sum", "public" and "resources" against
    the current working directory and never looks at [projectHome].
    Two contexts that agree on the dry-run and verbose flags (whatever
    their project homes and parsed options) make [clean] do exactly the
    same from the same state; every [Deno.removeSync] is aimed at
    [cwd/<target>]; every path that disappears lies in one of those three
    trees.  And what [clean] checks, reports and deletes is exactly this:
    in a dry run it prints "delete <target>" for each target at which
    something exists under the working directory, in order, and nothing
    for the others; in a real run whose command succeeds it calls
    [Deno.removeSync] on [cwd/<target>] for exactly those targets, in
    order, and the files left are the former ones without those trees. *)
Theorem clean_targets_relative_to_cwd
    (env : Env) (ctx1 ctx2 : PublishCommandHandlerContext) (st : State) :
  isDryRun ctx1 = isDryRun ctx2 ->
  isVerbose ctx1 = isVerbose ctx2 ->
  clean env ctx1 st = clean env ctx2 st /\
  Appends (cwdTargetEvent env) st (snd (clean env ctx1 st)) /\
  Deletes (underCwdTarget env) st (snd (clean env ctx1 st)) /\
  (isDryRun ctx1 = true ->
   clean env ctx1 st =
   (Normal tt,
    logged st (shellRun ctx1 "hugox mod clean --all" ++
               map (deletionReport env) (presentTargets env st)))) /\
  (isDryRun ctx1 = false ->
   shellOutcome env "hugox mod clean --all" = None ->
   clean env ctx1 st =
   (Normal tt,
    {| files := removeTrees (map (fun f => cwd env +:+ "/" +:+ f) (presentTargets env st))
                            (files st);
       trace := trace st ++
                (shellReport env ctx1 "hugox mod clean --all" ++
                 shellRun ctx1 "hugox mod clean --all") ++
                concat (map (removalOf env ctx1) (presentTargets env st));
       floating := floating st |})).
Proof.
  intros Hd Hv. split; [by apply clean_reads_flags_only|]. split.
  { apply clean_events_at_cwd. }
  split.
  { apply clean_deletes_at_cwd. }
  split.
  - intros Hdry. rewrite dry_clean_eq by done.
    rewrite forEach_cleanTarget_dry_exact by done.
    unfold shellRun, presentTargets, presentOf, logged. rewrite Hdry. simpl.
    by rewrite <- app_assoc.
  - intros Hdry Hok. unfold clean. unfold bind at 1. rewrite reportShellCmd_eq.
    unfold bind. rewrite runShellCommand_ok by done.
    rewrite logged_logged.
    rewrite (forEach_cleanTarget_real_exact env ctx1 cleanTargets _ Hdry
               (cleanTargets_unnested env)).
    unfold presentTargets, presentOf, logged. cbn [files trace floating].
    by rewrite <- app_assoc.
Qed.

(** Started in [/site] with [--project /srv/blog]: the run is the one
    without the option; what is there under [/site] goes, tree and all;
    what is under [/srv/blog] stays. *)
Lemma clean_targets_relative_to_cwd_witness :
  clean siteEnv
    (newContext siteEnv Sample.data
       {[ "clean" := JsBool true; "--project" := JsStr "/srv/blog" ]})
    (Sample.start ["/site/public"; "/site/public/index.html"; "/srv/blog/public";
                   "/srv/blog/go.sum"]) =
  clean siteEnv
    (newContext siteEnv Sample.data
       {[ "clean" := JsBool true ]})
    (Sample.start ["/site/public"; "/site/public/index.html"; "/srv/blog/public";
                   "/srv/blog/go.sum"]) /\
  clean siteEnv
    (newContext siteEnv Sample.data
       {[ "clean" := JsBool true; "--project" := JsStr "/srv/blog" ]})
    (Sample.start ["/site/public"; "/site/public/index.html"; "/srv/blog/public";
                   "/srv/blog/go.sum"]) =
  (Normal tt,
   {| files := ["/srv/blog/public"; "/srv/blog/go.sum"];
      trace := [ ShellCommand "hugox mod clean --all"
                   {| output := QuietOutput; dryRun := false |};
                 CommandExecuted "hugox mod clean --all";
                 RemoveSync "/site/public" ];
      floating := [] |}).
Proof.
  destruct (clean_targets_relative_to_cwd siteEnv
              (newContext siteEnv Sample.data
                 {[ "clean" := JsBool true; "--project" := JsStr "/srv/blog" ]})
              (newContext siteEnv Sample.data {[ "clean" := JsBool true ]})
              (Sample.start ["/site/public"; "/site/public/index.html";
                             "/srv/blog/public"; "/srv/blog/go.sum"]))
    as (Hsame & _ & _ & _ & Hreal); [reflexivity | reflexivity |].
  split; [exact Hsame|].
  rewrite Hreal; reflexivity.
Defined.
